(* ===== verification/_CoqProject ===== *)
-Q . S2P
Prelude.v
PyStr.v
PyDict.v
Csv.v
Normalize.v
Loaders.v
Matcher.v
Resolver.v
SimpleCore.v
Demo.v
