(* ===== verification/Prelude.v ===== *)
(** * market-tickers: a verification development of the ticker resolver

    The repository resolves a human-typed security name ("Nifty",
    "Reliance", "USDINR") into a market ticker symbol.  It ships two
    resolvers:

    - [src/build/lib/market_tickers/core.py] (the packaged resolver):
      strict normalisation [_normalize] (lower case, keep [a-z0-9]), a
      static [INDEX_ALIASES] table, a six-letter currency shortcut, a
      category dispatch over four datasets, the exact / startswith /
      contains cascade of [get_ticker] with the India ".NS" tie-breaks,
      the country table of [get_default_index], and the smart fallback
      [get] (index, currency, stock, ETF);
    - [src/market_tickers/core.py] (the source-tree resolver): lenient
      normalisation ([&] to "and", drop "-" and " "), exact-only lookup
      over indices, Indian and US stocks loaded once at import, and a
      [get_default_index] that follows each stock's [default_index]
      column back through [get_ticker].

    Both read CSV datasets through their [loaders.py]: the packaged one
    ([src/build/lib/market_tickers/loaders.py]) turns a missing file
    into an empty list and merges the legacy and new stock files,
    deduplicating by ticker with a Python dict (last row wins, first
    insertion position kept); the source-tree one
    ([src/market_tickers/loaders.py]) raises on a missing file.

    ** Files, in dependency order
    - [Prelude] (this file): the Python exception type [pyexc], the
      error monad [res] with its notation [x <-? m ;; k] in [py_scope],
      [try_except] for [try: ... except Exception], [first_ok] for a
      chain of such blocks, the generic list lemmas, the [tickers] / [tickers_rw] hint databases and the
      [case_len] tactic.
    - [PyStr]: the Python [str] methods the code calls ([lower],
      [upper], [isalpha], [startswith], [endswith], [in], [replace],
      [strip]) on ASCII strings, with their specifications
      ([py_startswith_spec], [py_in_spec], [py_endswith_spec], the
      equations of [replace], and [py_strip_split]: [strip] removes
      whitespace, and only whitespace, at both ends).
    - [PyDict]: a Python [dict] as an insertion-ordered association
      list ([dict_set], [dict_get], [dict_values]) with its key
      uniqueness invariant, its read-back lemma and its key order.
    - [Csv]: [list(csv.DictReader(f))] on records of cells: the header,
      [dict(zip(...))] and [None] for the cells a short record lacks
      ([RawRow]).  [Loaders] reads its files through it: the packaged loader sees
      the string cells ([to_row], equivalent under [r.get]), the
      source-tree loader and [SrcCore] the raw rows.
    - [Normalize]: both [_normalize] functions, each equivalent to a
      per-character reference ([strict_char]: the regular expression
      and [lower()] as one table on character codes; [lenient_char]:
      the chain of [replace] calls as one pass); idempotence, the
      character classes they produce, and where they disagree.
    - [Loaders]: CSV rows as [gmap string string], the data directory
      as [Files] (path to parsed rows), [BuildLoaders] and [SrcLoaders]
      for the two [loaders.py], the [DatasetProvider] class the packaged
      resolver reads, and [files_provider], its instance over [Files].
      Theorems: last-write-wins deduplication, unique tickers, the
      first-occurrence order of the deduplicated rows (a Python dict's
      key order, against the reference [first_occurrences]), the count
      bound (one row per distinct ticker, as a [gset] size), the new
      dataset overriding the legacy one, the error path of loading.
    - [Matcher]: lines 79-133 of the packaged [get_ticker] as
      [match_rows] (tiers as stdpp [filter]s in dataset order).
      Theorems: soundness, terminal exact ambiguity, both India
      tie-breaks, prefix fall-through, the exact "not found" condition,
      and, composed with [BuildLoaders.load_stocks], that the first two
      rows of an ambiguous tier always have different tickers.
    - [Resolver]: [Module Pkg], the packaged [get_ticker],
      [get_default_index] and [get], written against any
      [DatasetProvider]; the theorems quantify over the provider (the
      alias shortcut holds for all of them, so it never reads a
      dataset; so does the FX answer of [get], which never reads the
      currency dataset).  [get_ticker_sound] says where every answer
      comes from (the alias of the query, the FX ticker, or a valid row
      of the dataset of the category, per category); answers depend on
      the name only through its query; the "=x" suffix is stripped in
      lower case only, so the canonical "Q=X" is searched as a
      seven-letter name; [get] refines [first_ok] over its guarded
      attempts ([get_attempts]) and reads the index file only for a
      name that looks like an index; the FX shortcut round-trips;
      every spelling of "usa" is a US country for [get_default_index]
      but not for the new stock dataset.  [demo_files] is a small data
      directory on which the witnesses are evaluated.
    - [SimpleCore]: [Module SrcCore], the source-tree [core.py] with its
      import-time state [CoreState] over raw [DictReader] rows; the
      refinement theorems relate its loops to ordered candidate lists
      ([spec_get_ticker], and the stock list of [get_default_index],
      error path included); the import succeeds exactly when its files
      load, with their rows in the state ([init_spec]); answers depend
      on the name only through its lenient normal form; the error
      theorems separate a missing column ([KeyError]) from a missing
      cell ([AttributeError]).
    - [Demo]: [Module Demo], the demo script [src/unnamed/part_000]
      written against [TickerApi], a record of the two operations it
      imports, with an instance for each package; its prints and
      download request are a list of [event]s.  Theorem: with the
      packaged package the script requests "NVIDIA=X" and "^NSEI"
      whatever the data files hold; an example shows the source-tree
      package requesting "NVDA" and "^GSPC" on its demo files.

    ** Modelling choices
    Every loop of the code is a structural recursion or a [filter] /
    [foldl] over a finite list, and no function calls itself (the
    source-tree [get_default_index] calls [get_ticker] once), so no
    fuel or measure is needed, every definition is total and computes ([vm_compute] evaluates the witnesses).  Python
    exceptions are values of [pyexc]; [KeyError] and [ValueError] keep
    the source's messages.  A row lookup [r[k]] after the code's own
    non-emptiness filter is [row_sub]; elsewhere ([SrcCore.row_at]) an
    absent column raises [KeyError k] and a short record's cell is
    Python's [None] ([option string]), which [_normalize] rejects with
    [AttributeError] and an f-string prints as "None".

    ** What is not modelled
    The CSV text syntax (quoting, delimiters, line ends) and file I/O
    ([open], [importlib.resources]): a file is modelled by its records
    already split into cells ([CsvFiles]), which [Csv.dict_reader]
    turns into rows as [csv.DictReader] does; the data files themselves,
    which are not under [src/]; what the third-party [yfinance.download] returns
    and the table the demo script prints (the request itself is an
    [event] of [Demo]); which of the two packages named
    [market_tickers] the demo imports (no [__init__.py] is under
    [src/], so [Demo] covers both); Unicode case mapping (strings are ASCII,
    where Python's [str.lower] is the ASCII map); arguments of other
    Python types than [str] or [None]. *)

From stdpp Require Export base list gmap strings.
From Stdlib Require Export Ascii String.

Declare Scope py_scope.
Delimit Scope py_scope with py.

(** ** Python exceptions raised by the code *)
Inductive pyexc :=
| ValueError (msg : string)
| KeyError (msg : string)
| AttributeError (msg : string)
| FileNotFoundError (path : string).

#[export] Instance pyexc_eq_dec : EqDecision pyexc.
Proof. solve_decision. Defined.

(** ** The error monad: a Python call returns or raises *)
Inductive res (A : Type) :=
| Ok (a : A)
| Err (e : pyexc).
Arguments Ok {A} a.
Arguments Err {A} e.

#[export] Instance res_eq_dec `{EqDecision A} : EqDecision (res A).
Proof. solve_decision. Defined.

Definition res_bind {A B} (m : res A) (k : A -> res B) : res B :=
  match m with Ok a => k a | Err e => Err e end.

Notation "x <-? m ;; k" := (res_bind m (fun x => k))
  (at level 100, m at next level, right associativity) : py_scope.

(** [try: return m  except Exception: handler] *)
Definition try_except {A} (m : res A) (handler : pyexc -> res A) : res A :=
  match m with Ok a => Ok a | Err e => handler e end.

(** The first success of a sequence of attempts, or [final]: the meaning
    of a chain of [try: return ... except Exception: pass] blocks
    followed by [raise final]. *)
Fixpoint first_ok {A} (attempts : list (res A)) (final : pyexc) : res A :=
  match attempts with
  | [] => Err final
  | Ok a :: _ => Ok a
  | Err _ :: rest => first_ok rest final
  end.

Create HintDb tickers discriminated.
Create Rewrite HintDb tickers_rw.

(** ** Generic lemmas *)
Section generic.
Context {A : Type}.

(** The head of a list equation is a member of the list. *)
Lemma elem_of_cons_head (x : A) l l' : l = x :: l' -> x ∈ l.
Proof. intros ->. by left. Qed.

Lemma first_ok_cons (m : res A) rest final :
  first_ok (m :: rest) final = try_except m (fun _ => first_ok rest final).
Proof. by destruct m. Qed.

Context (P : A -> Prop) `{!forall x, Decision (P x)}.

Lemma filter_nil_forall (l : list A) :
  filter P l = [] <-> forall x, x ∈ l -> ~ P x.
Proof.
  split.
  - intros Hf x Hx HP. by eapply filter_nil_not_elem_of.
  - induction l as [|y l IH]; intros Hall; [done|].
    rewrite filter_cons, decide_False.
    + apply IH. intros x Hx. apply Hall. by right.
    + apply Hall. by left.
Qed.

End generic.

#[export] Hint Resolve elem_of_cons_head : tickers.

(** Case on the shape of the list whose length the hypothesis [H]
    bounds, as Python's [len(xs) == 1] / [len(xs) > 1] tests do: the
    cases the bound excludes are closed by [lia]. *)
Ltac case_len H :=
  match type of H with
  | context [List.length ?l] =>
      destruct l as [|? [|? ?]]; cbn [List.length] in H; try lia
  end.
