(* ===== verification/PyStr.v ===== *)
(** * PyStr: the Python [str] methods the resolvers call

    Strings are Stdlib [string]s of ASCII characters.  On ASCII,
    Python's [str.lower]/[str.upper] are the A-Z/a-z maps, [isalpha] is
    "non-empty and every character a letter", and [strip] removes the
    characters [str.isspace] accepts (9-13, 28-32).  [replace] scans
    left to right and replaces non-overlapping occurrences, as CPython
    does; it is written structurally, with a count of characters still
    to skip after a replaced occurrence.  Each method comes with the
    specification the proofs use. *)

From S2P Require Import Prelude.
Local Open Scope string_scope.

(** ** Character classes *)
Definition is_upper (c : ascii) : bool :=
  (Nat.leb 65 (nat_of_ascii c)) && (Nat.leb (nat_of_ascii c) 90).
Definition is_lower (c : ascii) : bool :=
  (Nat.leb 97 (nat_of_ascii c)) && (Nat.leb (nat_of_ascii c) 122).
Definition is_digit (c : ascii) : bool :=
  (Nat.leb 48 (nat_of_ascii c)) && (Nat.leb (nat_of_ascii c) 57).
Definition is_space (c : ascii) : bool :=
  ((Nat.leb 9 (nat_of_ascii c)) && (Nat.leb (nat_of_ascii c) 13))
  || ((Nat.leb 28 (nat_of_ascii c)) && (Nat.leb (nat_of_ascii c) 32)).

Definition char_lower (c : ascii) : ascii :=
  if is_upper c then ascii_of_nat (nat_of_ascii c + 32)%nat else c.
Definition char_upper (c : ascii) : ascii :=
  if is_lower c then ascii_of_nat (nat_of_ascii c - 32)%nat else c.

(** ** Traversals *)
Fixpoint str_map (f : ascii -> ascii) (s : string) : string :=
  match s with "" => "" | String c s' => String (f c) (str_map f s') end.

Fixpoint str_forallb (p : ascii -> bool) (s : string) : bool :=
  match s with "" => true | String c s' => p c && str_forallb p s' end.

Fixpoint str_filter (p : ascii -> bool) (s : string) : string :=
  match s with
  | "" => ""
  | String c s' => if p c then String c (str_filter p s') else str_filter p s'
  end.

Fixpoint str_flat_map (f : ascii -> string) (s : string) : string :=
  match s with "" => "" | String c s' => f c ++ str_flat_map f s' end.

(** ** The methods *)
Definition py_lower (s : string) : string := str_map char_lower s.
Definition py_upper (s : string) : string := str_map char_upper s.

Definition py_isalpha (s : string) : bool :=
  match s with
  | "" => false
  | _ => str_forallb (fun c => is_upper c || is_lower c) s
  end.

(** [s.startswith(p)] *)
Definition py_startswith (s p : string) : bool := String.prefix p s.

(** [s.endswith(suf)]: compare the last [len(suf)] characters. *)
Definition py_endswith (s suf : string) : bool :=
  (Nat.leb (String.length suf) (String.length s))
  && String.eqb (substring (String.length s - String.length suf)
                           (String.length suf) s) suf.

(** [needle in hay] *)
Fixpoint py_in (needle hay : string) : bool :=
  String.prefix needle hay
  || match hay with "" => false | String _ h => py_in needle h end.

(** [replace] for a non-empty [old]: [skip] counts the characters of a
    replaced occurrence that are still to be dropped. *)
Fixpoint replace_go (old new : string) (skip : nat) (s : string) : string :=
  match s with
  | "" => ""
  | String c s' =>
      match skip with
      | S k => replace_go old new k s'
      | O =>
          if String.prefix old s
          then new ++ replace_go old new (String.length old - 1) s'
          else String c (replace_go old new 0 s')
      end
  end.

(** [replace("", new)] puts [new] before every character and at the end. *)
Fixpoint interleave (new s : string) : string :=
  match s with "" => new | String c s' => new ++ String c (interleave new s') end.

(** [s.replace(old, new)] *)
Definition py_replace (s old new : string) : string :=
  match old with
  | "" => interleave new s
  | _ => replace_go old new 0 s
  end.

Fixpoint py_lstrip (s : string) : string :=
  match s with
  | "" => ""
  | String c s' => if is_space c then py_lstrip s' else s
  end.

Fixpoint py_rstrip (s : string) : string :=
  match s with
  | "" => ""
  | String c s' =>
      match py_rstrip s' with
      | "" => if is_space c then "" else String c ""
      | r => String c r
      end
  end.

(** [s.strip()] *)
Definition py_strip (s : string) : string := py_rstrip (py_lstrip s).

(** ** Specifications *)

(** Per-character facts are checked over all 256 characters. *)
Ltac all_chars c :=
  destruct c as [[] [] [] [] [] [] [] []]; reflexivity.

Lemma char_lower_not_upper c : is_upper (char_lower c) = false.
Proof. all_chars c. Qed.

Lemma char_lower_id c : is_upper c = false -> char_lower c = c.
Proof. intros H. unfold char_lower. by rewrite H. Qed.

Lemma char_lower_idem c : char_lower (char_lower c) = char_lower c.
Proof. apply char_lower_id, char_lower_not_upper. Qed.

Lemma str_forallb_app p s1 s2 :
  str_forallb p (s1 ++ s2) = str_forallb p s1 && str_forallb p s2.
Proof.
  induction s1 as [|c s1 IH]; simpl; [done|]. by rewrite IH, andb_assoc.
Qed.

Lemma str_forallb_map p f s :
  str_forallb p (str_map f s) = str_forallb (fun c => p (f c)) s.
Proof. induction s as [|c s IH]; simpl; congruence. Qed.

Lemma str_forallb_filter p q s :
  (forall c, q c = true -> p c = true) -> str_forallb p (str_filter q s) = true.
Proof.
  intros Hpq. induction s as [|c s IH]; simpl; [done|].
  destruct (q c) eqn:Hq; simpl; [by rewrite Hpq, IH | done].
Qed.

Lemma str_filter_all p s : str_forallb p s = true -> str_filter p s = s.
Proof.
  induction s as [|c s IH]; simpl; [done|].
  intros [-> Hs]%andb_prop. by rewrite IH.
Qed.

Lemma str_map_id f s : str_forallb (fun c => bool_decide (f c = c)) s = true ->
  str_map f s = s.
Proof.
  induction s as [|c s IH]; simpl; [done|].
  intros [Hc Hs]%andb_prop. apply bool_decide_eq_true in Hc. by rewrite Hc, IH.
Qed.

Lemma py_lower_idem s : py_lower (py_lower s) = py_lower s.
Proof.
  unfold py_lower. induction s as [|c s IH]; simpl; [done|].
  by rewrite char_lower_idem, IH.
Qed.

Lemma py_lower_no_upper s :
  str_forallb (fun c => negb (is_upper c)) (py_lower s) = true.
Proof.
  unfold py_lower. rewrite str_forallb_map.
  induction s as [|c s IH]; simpl; [done|]. by rewrite char_lower_not_upper, IH.
Qed.

Lemma string_app_empty_l (s : string) : "" ++ s = s.
Proof. reflexivity. Qed.

Lemma string_app_cons (c : ascii) (s1 s2 : string) :
  String c s1 ++ s2 = String c (s1 ++ s2).
Proof. reflexivity. Qed.

Lemma string_length_app (s1 s2 : string) :
  String.length (s1 ++ s2) = String.length s1 + String.length s2.
Proof. induction s1 as [|c s1 IH]; simpl; [done|]. by rewrite IH. Qed.

Lemma prefix_empty (s : string) : String.prefix "" s = true.
Proof. by destruct s. Qed.

Lemma prefix_app (p r : string) : String.prefix p (p ++ r) = true.
Proof.
  induction p as [|c p IH]; simpl; [by destruct r|].
  destruct (ascii_dec c c); [done | congruence].
Qed.

Lemma py_startswith_spec s p :
  py_startswith s p = true <-> exists r, s = p ++ r.
Proof.
  unfold py_startswith. split.
  - revert s. induction p as [|c p IH]; intros s H; [by exists s|].
    destruct s as [|c' s]; simpl in H; [discriminate|].
    destruct (ascii_dec c c'); [subst|discriminate].
    destruct (IH s H) as [r ->]. by exists r.
  - intros [r ->]. apply prefix_app.
Qed.

Lemma py_in_unfold needle hay :
  py_in needle hay = String.prefix needle hay
    || match hay with "" => false | String _ h => py_in needle h end.
Proof. by destruct hay. Qed.

Lemma py_in_spec needle hay :
  py_in needle hay = true <-> exists u v, hay = u ++ needle ++ v.
Proof.
  split.
  - induction hay as [|c h IH]; simpl; intros H.
    + apply orb_prop in H as [H|H]; [|discriminate].
      apply (py_startswith_spec "") in H as [r Hr]. by exists "", r.
    + apply orb_prop in H as [H|H].
      * apply (py_startswith_spec (String c h)) in H as [r Hr]. by exists "", r.
      * destruct (IH H) as (u & v & ->). by exists (String c u), v.
  - intros (u & v & ->). induction u as [|c u IH]; simpl.
    + rewrite py_in_unfold. change ("" ++ ?x) with x. by rewrite prefix_app.
    + by rewrite IH, orb_true_r.
Qed.

(** A needle with a character no character of [hay] has is absent. *)
Lemma py_in_forallb p needle hay :
  str_forallb p hay = true -> str_forallb p needle = false -> py_in needle hay = false.
Proof.
  intros Hh Hn. destruct (py_in needle hay) eqn:E; [|done].
  apply py_in_spec in E as (u & v & ->). rewrite !str_forallb_app in Hh.
  rewrite Hn in Hh. by destruct (str_forallb p u).
Qed.

Lemma substring_app_r (u s : string) :
  substring (String.length u) (String.length s) (u ++ s) = s.
Proof.
  induction u as [|c u IH]; simpl; [rewrite string_app_empty_l|done].
  induction s as [|c s IH]; simpl; [done|]. by rewrite IH.
Qed.

Lemma substring_full s : substring 0 (String.length s) s = s.
Proof. induction s as [|c s IH]; simpl; [done|]. by rewrite IH. Qed.

Lemma substring_split n s :
  n <= String.length s ->
  s = substring 0 n s ++ substring n (String.length s - n) s.
Proof.
  revert n. induction s as [|c s IH]; intros [|n] H; simpl in *; try lia.
  - done.
  - by rewrite substring_full.
  - rewrite string_app_cons. f_equal. apply IH. lia.
Qed.

Lemma py_endswith_spec s suf :
  py_endswith s suf = true <-> exists u, s = u ++ suf.
Proof.
  unfold py_endswith. split.
  - intros [Hle Heq]%andb_prop. apply Nat.leb_le in Hle.
    apply String.eqb_eq in Heq.
    exists (substring 0 (String.length s - String.length suf) s).
    pose proof (substring_split (String.length s - String.length suf) s
      ltac:(lia)) as Hs.
    replace (String.length s - (String.length s - String.length suf))
      with (String.length suf) in Hs by lia.
    by rewrite Heq in Hs.
  - intros [u ->]. rewrite string_length_app.
    apply andb_true_intro; split; [apply Nat.leb_le; lia|].
    apply String.eqb_eq. replace (String.length u + String.length suf -
      String.length suf) with (String.length u) by lia.
    apply substring_app_r.
Qed.

Lemma replace_go_skip old new (t s : string) :
  replace_go old new (String.length t) (t ++ s) = replace_go old new 0 s.
Proof. induction t as [|c t IH]; simpl; done. Qed.

(** The two equations of Python's [replace] for a non-empty [old]. *)
Lemma py_replace_hit (s old new : string) :
  old <> "" -> py_replace (old ++ s) old new = new ++ py_replace s old new.
Proof.
  intros Hne. destruct old as [|c o]; [done|]. unfold py_replace.
  simpl. rewrite prefix_app. destruct (ascii_dec c c); [|congruence].
  rewrite Nat.sub_0_r. f_equal. apply replace_go_skip.
Qed.

Lemma py_replace_miss (c : ascii) (s old new : string) :
  old <> "" -> String.prefix old (String c s) = false ->
  py_replace (String c s) old new = String c (py_replace s old new).
Proof.
  intros Hne Hp. destruct old as [|a o]; [done|]. unfold py_replace.
  simpl in *. by rewrite Hp.
Qed.

(** Replacing one character is a flat map over the characters. *)
Lemma py_replace_char (a : ascii) (s new : string) :
  py_replace s (String a "") new =
  str_flat_map (fun c => if Ascii.eqb c a then new else String c "") s.
Proof.
  unfold py_replace. induction s as [|c s IH]; [done|]. simpl.
  destruct (ascii_dec a c) as [->|Hne].
  - by rewrite prefix_empty, Ascii.eqb_refl, IH.
  - destruct (Ascii.eqb c a) eqn:E; [apply Ascii.eqb_eq in E; congruence|].
    by rewrite string_app_cons, string_app_empty_l, IH.
Qed.

Lemma str_forallb_flat_map p f s :
  (forall c, str_forallb p (f c) = true) -> str_forallb p (str_flat_map f s) = true.
Proof.
  intros Hf. induction s as [|c s IH]; simpl; [done|].
  by rewrite str_forallb_app, Hf, IH.
Qed.

Lemma str_flat_map_id f s :
  str_forallb (fun c => bool_decide (f c = String c "")) s = true ->
  str_flat_map f s = s.
Proof.
  induction s as [|c s IH]; simpl; [done|].
  intros [Hc Hs]%andb_prop. apply bool_decide_eq_true in Hc. by rewrite Hc, IH.
Qed.

Lemma str_forallb_impl (p q : ascii -> bool) s :
  (forall c, p c = true -> q c = true) ->
  str_forallb p s = true -> str_forallb q s = true.
Proof.
  intros Hpq. induction s as [|c s IH]; simpl; [done|].
  intros [Hc Hs]%andb_prop. by rewrite Hpq, IH.
Qed.

Lemma string_app_nil_r (s : string) : s ++ "" = s.
Proof. induction s as [|c s IH]; [done|]. by rewrite string_app_cons, IH. Qed.

Lemma string_app_assoc (s1 s2 s3 : string) : s1 ++ s2 ++ s3 = (s1 ++ s2) ++ s3.
Proof. induction s1 as [|c s1 IH]; [done|]. by rewrite !string_app_cons, IH. Qed.

Lemma str_map_app f s1 s2 : str_map f (s1 ++ s2) = str_map f s1 ++ str_map f s2.
Proof. induction s1 as [|c s1 IH]; [done|]. rewrite string_app_cons. simpl. by rewrite IH. Qed.

Lemma str_filter_app p s1 s2 :
  str_filter p (s1 ++ s2) = str_filter p s1 ++ str_filter p s2.
Proof.
  induction s1 as [|c s1 IH]; [done|]. rewrite string_app_cons. simpl.
  rewrite IH. by destruct (p c).
Qed.

(** A string with no occurrence of a non-empty [old] is left unchanged
    by [replace]. *)
Lemma py_replace_absent old new s :
  old <> "" -> py_in old s = false -> py_replace s old new = s.
Proof.
  intros Hne. induction s as [|c s IH]; intros Hin; [by destruct old|].
  rewrite py_in_unfold in Hin. apply orb_false_iff in Hin as [Hp Hin].
  rewrite py_replace_miss by done. by rewrite IH.
Qed.

(** ** [strip] removes whitespace, and only whitespace, at both ends *)

Lemma py_lstrip_split s : exists a, s = a ++ py_lstrip s /\ str_forallb is_space a = true.
Proof.
  induction s as [|c s (a & Ha & Hsp)]; [by exists ""|]. simpl.
  destruct (is_space c) eqn:E; [|by exists ""].
  exists (String c a). rewrite string_app_cons, <- Ha. simpl. by rewrite E, Hsp.
Qed.

Lemma py_rstrip_split s : exists b, s = py_rstrip s ++ b /\ str_forallb is_space b = true.
Proof.
  induction s as [|c s (b & Hb & Hsp)]; [by exists ""|]. simpl.
  destruct (py_rstrip s) as [|c' r] eqn:E.
  - rewrite string_app_empty_l in Hb. subst s.
    destruct (is_space c) eqn:Ec.
    + exists (String c b). simpl. by rewrite Ec, Hsp.
    + by exists b.
  - exists b. rewrite string_app_cons, <- Hb. done.
Qed.

Lemma py_strip_split s :
  exists a b, s = a ++ py_strip s ++ b
    /\ str_forallb is_space a = true /\ str_forallb is_space b = true.
Proof.
  destruct (py_lstrip_split s) as (a & Ha & Hspa).
  destruct (py_rstrip_split (py_lstrip s)) as (b & Hb & Hspb).
  exists a, b. unfold py_strip. by rewrite <- Hb.
Qed.

(** A substring of [s.strip()] is a substring of [s]. *)
Lemma py_in_strip k s : py_in k (py_strip s) = true -> py_in k s = true.
Proof.
  rewrite !py_in_spec. intros (u & v & Huv).
  destruct (py_strip_split s) as (a & b & Hs & _ & _).
  exists (a ++ u), (v ++ b). rewrite Hs, Huv, <- !string_app_assoc. done.
Qed.

Lemma str_filter_map_space p f a :
  (forall c, is_space c = true -> p (f c) = false) ->
  str_forallb is_space a = true -> str_filter p (str_map f a) = "".
Proof.
  intros Hpf. induction a as [|c a IH]; simpl; [done|].
  intros [Hc Ha]%andb_prop. rewrite Hpf by done. auto.
Qed.

(** A character filter that rejects (the image of) every whitespace
    character does not see [strip]. *)
Lemma str_filter_map_strip p f s :
  (forall c, is_space c = true -> p (f c) = false) ->
  str_filter p (str_map f (py_strip s)) = str_filter p (str_map f s).
Proof.
  intros Hpf. destruct (py_strip_split s) as (a & b & Hs & Ha & Hb).
  rewrite Hs at 2. rewrite !str_map_app, !str_filter_app,
    (str_filter_map_space p f a), (str_filter_map_space p f b) by done.
  by rewrite string_app_empty_l, string_app_nil_r.
Qed.

(** ** Fusion of character traversals *)

Lemma str_flat_map_app f s1 s2 :
  str_flat_map f (s1 ++ s2) = str_flat_map f s1 ++ str_flat_map f s2.
Proof.
  induction s1 as [|c s1 IH]; [done|]. rewrite string_app_cons. simpl.
  by rewrite IH, string_app_assoc.
Qed.

Lemma str_filter_flat_map p s :
  str_filter p s = str_flat_map (fun c => if p c then String c "" else "") s.
Proof. induction s as [|c s IH]; simpl; [done|]. rewrite IH. by destruct (p c). Qed.

Lemma str_flat_map_map f g s : str_flat_map f (str_map g s) = str_flat_map (fun c => f (g c)) s.
Proof. induction s as [|c s IH]; simpl; by rewrite ?IH. Qed.

Lemma str_flat_map_flat_map f g s :
  str_flat_map g (str_flat_map f s) = str_flat_map (fun c => str_flat_map g (f c)) s.
Proof. induction s as [|c s IH]; simpl; [done|]. by rewrite str_flat_map_app, IH. Qed.

Lemma str_flat_map_ext f g s : (forall c, f c = g c) -> str_flat_map f s = str_flat_map g s.
Proof. intros Hfg. induction s as [|c s IH]; simpl; by rewrite ?Hfg, ?IH. Qed.

(** ** Round trips *)

Lemma char_lower_upper c : is_lower c = true -> char_lower (char_upper c) = c.
Proof. revert c. intros [[] [] [] [] [] [] [] []]; vm_compute; congruence. Qed.

(** [s.upper().lower() == s] on lower-case letters. *)
Lemma py_lower_upper s :
  str_forallb is_lower s = true -> py_lower (py_upper s) = s.
Proof.
  unfold py_lower, py_upper. induction s as [|c s IH]; [done|]. simpl.
  intros [Hc Hs]%andb_prop. by rewrite char_lower_upper, IH.
Qed.

(** [strip] leaves a string without whitespace unchanged. *)
Lemma py_strip_id s : str_forallb (fun c => negb (is_space c)) s = true -> py_strip s = s.
Proof.
  intros Hs. unfold py_strip. assert (Hl : py_lstrip s = s).
  { destruct s as [|c s]; [done|]. simpl in *. apply andb_prop in Hs as [Hc _].
    apply negb_true_iff in Hc. by rewrite Hc. }
  rewrite Hl. clear Hl. induction s as [|c s IH]; [done|]. simpl in *.
  apply andb_prop in Hs as [Hc Hs]. apply negb_true_iff in Hc.
  rewrite IH by done. destruct s; [by rewrite Hc|done].
Qed.

(** Replacing [old] in [q ++ old], where [q] never contains the first
    character of [old], replaces exactly the final occurrence. *)
Lemma py_replace_app_old (c0 : ascii) o q new :
  str_forallb (fun c => negb (c =? c0)%char) q = true ->
  py_replace (q ++ String c0 o) (String c0 o) new = q ++ new.
Proof.
  induction q as [|c q IH]; intros Hq.
  - rewrite !string_app_empty_l, <- (string_app_nil_r (String c0 o)) at 1.
    rewrite py_replace_hit by done. apply string_app_nil_r.
  - simpl in Hq. apply andb_prop in Hq as [Hc Hq].
    rewrite string_app_cons, py_replace_miss, IH by
      (done || (simpl; destruct (ascii_dec c0 c) as [->|]; [by rewrite Ascii.eqb_refl in Hc|done])).
    done.
Qed.

#[export] Hint Resolve str_forallb_filter str_forallb_flat_map py_lower_no_upper
  : tickers.
#[export] Hint Rewrite str_forallb_app str_forallb_map py_lower_idem : tickers_rw.
