(* ===== verification/PyDict.v ===== *)
(** * PyDict: a Python [dict] as an insertion-ordered association list

    A Python 3.7+ [dict] iterates in first-insertion order, and
    [d[k] = v] on a present key replaces the value in place.  The
    model is a list of key/value pairs updated by [dict_set].  The
    invariant is that keys are unique ([dict_wf]); [dict_set] preserves
    it, reads back through [dict_get] and keeps the key order. *)

From S2P Require Import Prelude.

Section dict.
Context {K V : Type} `{EqDecision K}.

(** [d[k] = v] *)
Fixpoint dict_set (d : list (K * V)) (k : K) (v : V) : list (K * V) :=
  match d with
  | [] => [(k, v)]
  | (k', v') :: d' =>
      if decide (k = k') then (k, v) :: d' else (k', v') :: dict_set d' k v
  end.

(** [d.get(k)] *)
Fixpoint dict_get (d : list (K * V)) (k : K) : option V :=
  match d with
  | [] => None
  | (k', v') :: d' => if decide (k = k') then Some v' else dict_get d' k
  end.

Definition dict_keys (d : list (K * V)) : list K := fst <$> d.
(** [list(d.values())] *)
Definition dict_values (d : list (K * V)) : list V := snd <$> d.

Definition dict_wf (d : list (K * V)) : Prop := NoDup (dict_keys d).

Lemma dict_set_keys d k v :
  dict_keys (dict_set d k v) =
  if decide (k ∈ dict_keys d) then dict_keys d else dict_keys d ++ [k].
Proof.
  unfold dict_keys. induction d as [|[k' v'] d IH]; [done|].
  cbn [dict_set]. destruct (decide (k = k')) as [->|Hne].
  - rewrite decide_True; [done | by left].
  - cbn [fmap list_fmap fst]. rewrite IH. destruct (decide (k ∈ fst <$> d)) as [Hin|Hnin].
    + rewrite decide_True; [done | by right].
    + rewrite decide_False; [done|]. rewrite elem_of_cons. tauto.
Qed.

Lemma dict_set_wf d k v : dict_wf d -> dict_wf (dict_set d k v).
Proof.
  unfold dict_wf. rewrite dict_set_keys. case_decide as Hin; [done|].
  intros Hnd. apply NoDup_app. split; [done|]. split.
  - intros x Hx ->%list_elem_of_singleton. done.
  - apply NoDup_singleton.
Qed.

Lemma dict_get_set d k k' v :
  dict_get (dict_set d k v) k' = if decide (k' = k) then Some v else dict_get d k'.
Proof.
  induction d as [|[k0 v0] d IH]; simpl.
  - by case_decide.
  - destruct (decide (k = k0)) as [->|Hne]; simpl.
    + by repeat case_decide.
    + rewrite IH. repeat case_decide; subst; congruence.
Qed.

Lemma dict_get_elem d k v : dict_get d k = Some v -> (k, v) ∈ d.
Proof.
  induction d as [|[k0 v0] d IH]; simpl; [discriminate|].
  case_decide; [intros [= <-]; subst; by left | intros; right; auto].
Qed.

Lemma dict_set_elem d k v t r :
  (t, r) ∈ dict_set d k v -> (t, r) = (k, v) \/ (t, r) ∈ d.
Proof.
  induction d as [|[k' v'] d IH]; simpl; [rewrite list_elem_of_singleton; tauto|].
  case_decide; rewrite !elem_of_cons.
  - intros [?|?]; [by left | right; by right].
  - intros [?|[?|?]%IH]; [right; by left | by left | right; by right].
Qed.

End dict.

#[export] Hint Resolve dict_set_wf : tickers.
#[export] Hint Rewrite @dict_get_set : tickers_rw.
