(* ===== verification/Csv.v ===== *)
(** * Csv: the rows [csv.DictReader] yields

    Both [_load_csv] functions return [list(csv.DictReader(f))].  The
    reader takes the first record of the file as [fieldnames], skips
    blank records, and turns every other record [row] into
    [d = dict(zip(fieldnames, row))]; a record shorter than the header
    gets [d[key] = restval] (Python [None]) for each remaining name, and
    the cells of a longer record go under the key [restkey] ([None]),
    which no string lookup reaches.  This file models that construction
    on records already split into cells; the CSV text syntax (quoting,
    delimiters, line ends) is not modelled.

    A cell is an [option string]: [Some v] for a cell of the record,
    [None] for Python's [None].  These rows are what [SrcLoaders] and,
    through [to_row], [BuildLoaders] read ([Loaders]). *)

From S2P Require Import Prelude.
Local Open Scope string_scope.

(** A [dict] built by [DictReader]: column name to cell. *)
Abbreviation RawRow := (gmap string (option string)).

(** [dict(zip(fieldnames, row))]: inserted left to right, so a repeated
    column name keeps its last cell; [zip] stops at the shorter list. *)
Fixpoint zip_dict (d : RawRow) (fieldnames row : list string) : RawRow :=
  match fieldnames, row with
  | k :: ks, v :: vs => zip_dict (<[k := Some v]> d) ks vs
  | _, _ => d
  end.

(** [DictReader.__next__] on one non-blank record. *)
Definition dict_reader_row (fieldnames row : list string) : RawRow :=
  let d := zip_dict ∅ fieldnames row in
  if Nat.ltb (List.length row) (List.length fieldnames)
  then foldl (fun d key => <[key := None]> d) d (drop (List.length row) fieldnames)
  else d.

(** [list(csv.DictReader(f))] on the records of a file. *)
Definition dict_reader (records : list (list string)) : list RawRow :=
  match records with
  | [] => []
  | fieldnames :: rest => dict_reader_row fieldnames <$> filter (fun r => r <> []) rest
  end.
