(* ===== verification/Normalize.v ===== *)
(** * Normalize: the two [_normalize] functions of the repository

    - [normalize_strict] is [_normalize] of
      [src/build/lib/market_tickers/core.py] (lines 16-18):
      [re.sub(r"[^a-z0-9]", "", text.lower())];
    - [normalize_lenient] is [_normalize] of
      [src/market_tickers/core.py] (lines 10-16): lower case, then
      [&] to "and", then drop "-", then drop " ".

    Both are total and both equal a per-character reference: the strict
    one [strict_char] (a table on character codes), the lenient one
    [lenient_char].  Both are idempotent; the strict one only produces
    [a-z0-9] (so a key of [INDEX_ALIASES] containing [&] can never be
    hit), the lenient one never produces an upper-case letter, [&], [-]
    or a space but keeps every other punctuation character, and its
    chain of [replace] calls equals the single pass [lenient_char].  The
    two policies differ on "S&P 500". *)

From S2P Require Import Prelude PyStr.
Local Open Scope string_scope.

(** The regular-expression class [a-z0-9]. *)
Definition is_norm_char (c : ascii) : bool := is_lower c || is_digit c.

Definition normalize_strict (text : string) : string :=
  str_filter is_norm_char (py_lower text).

Definition normalize_lenient (text : string) : string :=
  py_replace (py_replace (py_replace (py_lower text) "&" "and") "-" "") " " "".

(** The characters [normalize_lenient] removes or rewrites. *)
Definition lenient_clean (c : ascii) : bool :=
  negb (is_upper c) && negb (c =? "&")%char && negb (c =? "-")%char
  && negb (c =? " ")%char.

(** Reference definition of the lenient policy as one left-to-right pass:
    each character is lower-cased, then "&" becomes "and" and "-" and
    " " are dropped. *)
Definition lenient_char (c : ascii) : string :=
  let d := char_lower c in
  if (d =? "&")%char then "and"
  else if (d =? "-")%char || (d =? " ")%char then ""
  else String d "".

(** Reference definition of the strict policy, per character code:
    an ASCII upper-case letter (65-90) becomes its lower-case letter
    (code + 32), a lower-case letter (97-122) or a digit (48-57) is
    kept, and every other character is dropped. *)
Definition strict_char (c : ascii) : string :=
  let k := nat_of_ascii c in
  if ((65 <=? k) && (k <=? 90))%nat then String (ascii_of_nat (k + 32)) ""
  else if ((97 <=? k) && (k <=? 122) || (48 <=? k) && (k <=? 57))%nat then String c ""
  else "".

(** ** Helper lemmas on single-character replacement *)

Lemma replace_char_forallb (p q : ascii -> bool) a new s :
  str_forallb p s = true -> str_forallb q new = true ->
  (forall c, p c = true -> c <> a -> q c = true) ->
  str_forallb q (py_replace s (String a "") new) = true.
Proof.
  intros Hs Hnew Hpq. rewrite py_replace_char.
  induction s as [|c s IH]; simpl in *; [done|].
  apply andb_prop in Hs as [Hc Hs]. rewrite str_forallb_app, IH by done.
  destruct (Ascii.eqb_spec c a) as [->|Hne]; [by rewrite Hnew|].
  simpl. by rewrite (Hpq c).
Qed.

Lemma replace_char_absent a new s :
  str_forallb (fun c => negb (c =? a)%char) s = true ->
  py_replace s (String a "") new = s.
Proof.
  intros Hs. rewrite py_replace_char. apply str_flat_map_id.
  refine (str_forallb_impl _ _ _ _ Hs). intros c Hc.
  apply bool_decide_eq_true. apply negb_true_iff in Hc. by rewrite Hc.
Qed.

Lemma norm_char_not_upper c : is_norm_char c = true -> is_upper c = false.
Proof. destruct c as [[] [] [] [] [] [] [] []]; vm_compute; congruence. Qed.

(** ** Strict normalisation *)

Lemma normalize_strict_chars s :
  str_forallb is_norm_char (normalize_strict s) = true.
Proof. unfold normalize_strict. by apply str_forallb_filter. Qed.

Lemma normalize_strict_fixed s :
  str_forallb is_norm_char s = true -> normalize_strict s = s.
Proof.
  intros Hs. unfold normalize_strict, py_lower.
  rewrite str_map_id; [by apply str_filter_all|].
  refine (str_forallb_impl _ _ _ _ Hs). intros c Hc.
  apply bool_decide_eq_true, char_lower_id, norm_char_not_upper, Hc.
Qed.

(** Surrounding whitespace does not reach the strict normal form. *)
Lemma normalize_strict_strip s : normalize_strict (py_strip s) = normalize_strict s.
Proof.
  apply str_filter_map_strip. intros c.
  destruct c as [[] [] [] [] [] [] [] []]; vm_compute; congruence.
Qed.

Lemma str_forallb_in_absent p a s :
  str_forallb p s = true -> p a = false -> py_in (String a "") s = false.
Proof.
  intros Hs Ha. induction s as [|c s IH]; [done|]. simpl in *.
  apply andb_prop in Hs as [Hc Hs]. rewrite IH by done.
  destruct (ascii_dec a c) as [->|]; [congruence|done].
Qed.

(** ** Lenient normalisation *)

Lemma normalize_lenient_clean s :
  str_forallb lenient_clean (normalize_lenient s) = true.
Proof.
  unfold normalize_lenient.
  apply (replace_char_forallb
    (fun c => negb (is_upper c) && negb (c =? "&")%char && negb (c =? "-")%char));
    [| done |].
  - apply (replace_char_forallb (fun c => negb (is_upper c) && negb (c =? "&")%char));
      [| done |].
    + apply (replace_char_forallb (fun c => negb (is_upper c))); [apply py_lower_no_upper | done |].
      intros c Hc Hne. rewrite Hc. by apply Ascii.eqb_neq in Hne as ->.
    + intros c Hc Hne. rewrite Hc. by apply Ascii.eqb_neq in Hne as ->.
  - intros c Hc Hne. unfold lenient_clean. rewrite Hc. by apply Ascii.eqb_neq in Hne as ->.
Qed.

Lemma normalize_lenient_fixed s :
  str_forallb lenient_clean s = true -> normalize_lenient s = s.
Proof.
  intros Hs. unfold normalize_lenient, py_lower.
  assert (Hi : forall (q : ascii -> bool), (forall c, lenient_clean c = true -> q c = true) ->
            str_forallb q s = true) by (intros q Hq; exact (str_forallb_impl _ _ _ Hq Hs)).
  rewrite str_map_id.
  2: { apply Hi. intros c Hc. apply bool_decide_eq_true, char_lower_id.
       unfold lenient_clean in Hc. repeat (apply andb_prop in Hc as [Hc ?]).
       by apply negb_true_iff. }
  rewrite (replace_char_absent "&"), (replace_char_absent "-"),
    (replace_char_absent " "); [done| | |]; apply Hi; intros c Hc;
    unfold lenient_clean in Hc; repeat (apply andb_prop in Hc as [Hc ?]); done.
Qed.

(** ** Properties *)

(** Strict normalisation is idempotent. *)
Theorem normalize_strict_idem s :
  normalize_strict (normalize_strict s) = normalize_strict s.
Proof. apply normalize_strict_fixed, normalize_strict_chars. Qed.

(** C29: Equivalence: [re.sub(r"[^a-z0-9]", "", text.lower())] of the
    packaged [_normalize] computes the per-character reference
    [strict_char] on every string: upper-case letters are lowered,
    lower-case letters and digits kept, everything else removed. *)
Theorem normalize_strict_single_pass s :
  normalize_strict s = str_flat_map strict_char s.
Proof.
  unfold normalize_strict, py_lower. rewrite str_filter_flat_map, str_flat_map_map.
  apply str_flat_map_ext. intros c. destruct c as [[] [] [] [] [] [] [] []]; reflexivity.
Qed.

(** Strict normalisation never yields a string containing [&]. *)
Theorem normalize_strict_no_amp s :
  py_in "&" (normalize_strict s) = false.
Proof.
  apply (str_forallb_in_absent is_norm_char); [apply normalize_strict_chars | done].
Qed.

(** Lenient normalisation is idempotent. *)
Theorem normalize_lenient_idem s :
  normalize_lenient (normalize_lenient s) = normalize_lenient s.
Proof. apply normalize_lenient_fixed, normalize_lenient_clean. Qed.

(** C33: Equivalence: the chain [lower().replace("&", "and")
    .replace("-", "").replace(" ", "")] of the source-tree [_normalize]
    computes the single-pass reference [lenient_char] on every string. *)
Theorem normalize_lenient_single_pass s :
  normalize_lenient s = str_flat_map lenient_char s.
Proof.
  unfold normalize_lenient, py_lower. rewrite !py_replace_char, str_flat_map_map,
    !str_flat_map_flat_map.
  apply str_flat_map_ext. intros c. destruct c as [[] [] [] [] [] [] [] []]; reflexivity.
Qed.

(** The two policies disagree on "S&P 500": the strict one gives
    "sp500", the lenient one "sandp500". *)
Theorem normalize_policies_differ :
  normalize_strict "S&P 500" = "sp500" /\ normalize_lenient "S&P 500" = "sandp500".
Proof. split; reflexivity. Qed.
