(* ===== verification/Loaders.v ===== *)
(** * Loaders: the CSV datasets and both loader modules

    A CSV row of [csv.DictReader] is a [gmap string string] from column
    names to cell values; [row.get(k)] is its lookup.  The bundled data
    files are a partial map [Files] from package-relative paths to the
    rows they parse to ([None]: the file is absent).

    - [BuildLoaders] models [src/build/lib/market_tickers/loaders.py]:
      [_load_csv] turns a missing file into [[]]; [load_stocks] reads
      the legacy file and, for India and the US, the new file, then
      deduplicates by ticker through a [dict] ([PyDict]).
    - [SrcLoaders] models [src/market_tickers/loaders.py] on the raw
      rows [csv.DictReader] yields ([RawFiles], cells may be [None]):
      [_load_csv] raises [FileNotFoundError]; [load_indices]
      concatenates three files.
    - [parse_files] and [raw_files] read [CsvFiles] (records of cells)
      through [Csv.dict_reader]; the packaged loader keeps the string
      cells ([to_row]), which [r.get(k)] cannot tell from the raw row
      ([row_get_to_row]).
    - [DatasetProvider] is the read interface the packaged resolver is
      written against; [files_provider] implements it with
      [BuildLoaders]. *)

From S2P Require Import Prelude PyStr PyDict Csv.
Local Open Scope string_scope.

(** A [csv.DictReader] row. *)
Abbreviation Row := (gmap string string).

(** [row.get(k)] *)
Definition row_get (r : Row) (k : string) : option string := r !! k.

(** Truth value of a string in Python: non-empty. *)
Definition py_truthy (s : string) : bool := negb (String.eqb s "").

(** The parsed bundled files, by package-relative path. *)
Definition Files := string -> option (list Row).

(** The string cells of a [DictReader] row: through [r.get(k)] a [None]
    cell reads like an absent column ([row_get_to_row]). *)
Definition to_row (r : RawRow) : Row := omap id r.

(** The bundled files as records of cells, by path. *)
Definition CsvFiles := string -> option (list (list string)).

(** The rows [list(csv.DictReader(open(path)))] yields, cells [None]
    included, by path. *)
Definition RawFiles := string -> option (list RawRow).

Definition raw_files (cf : CsvFiles) : RawFiles := fun path => dict_reader <$> cf path.

(** The packaged loader's view: the string cells of each row. *)
Definition parse_files (cf : CsvFiles) : Files :=
  fun path => (fun rows : list RawRow => to_row <$> rows) <$> raw_files cf path.

Lemma row_get_to_row r k : row_get (to_row r) k = r !! k ≫= id.
Proof. unfold row_get, to_row. rewrite lookup_omap. by destruct (r !! k). Qed.

Module BuildLoaders.

(** [_load_csv]: the rows of the file, or [[]] when it is missing. *)
Definition _load_csv (fs : Files) (relative_path : string) : list Row :=
  match fs relative_path with
  | Some rows => rows
  | None => []
  end.

(** One iteration of the deduplication loop:
    [ticker = row.get("ticker"); if ticker: deduped[ticker] = row]. *)
Definition dedupe_step (deduped : list (string * Row)) (row : Row)
  : list (string * Row) :=
  match row_get row "ticker" with
  | Some ticker => if py_truthy ticker then dict_set deduped ticker row else deduped
  | None => deduped
  end.

(** [deduped = {}; for row in rows: ...; return list(deduped.values())] *)
Definition dedupe_by_ticker (rows : list Row) : list Row :=
  dict_values (foldl dedupe_step [] rows).

(** The new dataset for a normalised country, if there is one. *)
Definition new_stock_file (country : string) : option string :=
  if String.eqb country "india" then Some "data/new_stocks/india_stocks.csv"
  else if String.eqb country "united_states" || String.eqb country "us"
  then Some "data/new_stocks/us_stocks.csv"
  else None.

Definition load_stocks (fs : Files) (country : string) : list Row :=
  let country := py_replace (py_lower country) " " "_" in
  let rows := _load_csv fs ("data/stocks/stocks_" ++ country ++ ".csv") in
  let rows := (rows ++ match new_stock_file country with
                       | Some f => _load_csv fs f
                       | None => []
                       end)%list in
  dedupe_by_ticker rows.

Definition load_indices (fs : Files) : list Row :=
  _load_csv fs "data/indices/indices.csv".
Definition load_etfs (fs : Files) : list Row :=
  _load_csv fs "data/etfs/etfs.csv".
Definition load_currencies (fs : Files) : list Row :=
  _load_csv fs "data/currencies/currencies.csv".
End BuildLoaders.

Module SrcLoaders.

(** [DATA_DIR = os.path.join(BASE_DIR, "data")], relative to the
    package directory [BASE_DIR] that [Files] paths start from. *)
Definition DATA_DIR : string := "data".

(** [_load_csv]: [os.path.join(DATA_DIR, filename)]; [open] raises when
    the file is missing. *)
Definition _load_csv (fs : RawFiles) (filename : string) : res (list RawRow) :=
  let path := DATA_DIR ++ "/" ++ filename in
  match fs path with
  | Some rows => Ok rows
  | None => Err (FileNotFoundError path)
  end.

Definition load_india_stocks (fs : RawFiles) : res (list RawRow) :=
  _load_csv fs "india_stocks.csv".
Definition load_usa_stocks (fs : RawFiles) : res (list RawRow) :=
  _load_csv fs "usa_stocks.csv".

(** [for file in [...]: indices.extend(_load_csv(file))] *)
Fixpoint extend_all (fs : RawFiles) (indices : list RawRow) (files : list string)
  : res (list RawRow) :=
  match files with
  | [] => Ok indices
  | file :: rest =>
      (rows <-? _load_csv fs file ;; extend_all fs (indices ++ rows)%list rest)%py
  end.

Definition load_indices (fs : RawFiles) : res (list RawRow) :=
  extend_all fs [] ["indices_india.csv"; "indices_usa.csv"; "indices_global.csv"].
End SrcLoaders.

(** ** The read interface of the packaged resolver *)
Class DatasetProvider := {
  load_stocks : string -> list Row;
  load_indices : list Row;
  load_etfs : list Row;
  load_currencies : list Row
}.

Definition files_provider (fs : Files) : DatasetProvider := {|
  load_stocks := BuildLoaders.load_stocks fs;
  load_indices := BuildLoaders.load_indices fs;
  load_etfs := BuildLoaders.load_etfs fs;
  load_currencies := BuildLoaders.load_currencies fs
|}.

(** ** The deduplication loop *)
Section dedupe.
Import BuildLoaders.

(** Every stored row carries its key as a truthy ticker. *)
Definition dedupe_inv (d : list (string * Row)) : Prop :=
  dict_wf d /\ forall t r, (t, r) ∈ d -> row_get r "ticker" = Some t /\ py_truthy t = true.

Lemma dedupe_step_inv d row : dedupe_inv d -> dedupe_inv (dedupe_step d row).
Proof.
  unfold dedupe_step. intros [Hwf Hd].
  destruct (row_get row "ticker") as [t|] eqn:Ht; [|done].
  destruct (py_truthy t) eqn:Htr; [|done].
  split; [auto with tickers|]. intros t' r' [[= -> ->]|]%dict_set_elem; eauto.
Qed.

Lemma dedupe_loop_inv d rows : dedupe_inv d -> dedupe_inv (foldl dedupe_step d rows).
Proof.
  revert d. induction rows as [|row rows IH]; simpl; [done|].
  intros d Hd. apply IH, dedupe_step_inv, Hd.
Qed.

Lemma dedupe_step_get d row t :
  py_truthy t = true ->
  dict_get (dedupe_step d row) t =
  if decide (row_get row "ticker" = Some t) then Some row else dict_get d t.
Proof.
  intros Ht. unfold dedupe_step.
  destruct (row_get row "ticker") as [t'|]; [|by rewrite decide_False].
  destruct (py_truthy t') eqn:Ht'.
  - autorewrite with tickers_rw. repeat case_decide; congruence.
  - rewrite decide_False; congruence.
Qed.

(** The loop keeps, for each truthy ticker, the last row carrying it. *)
Lemma dedupe_loop_get d rows t :
  py_truthy t = true ->
  dict_get (foldl dedupe_step d rows) t =
  match last (filter (fun r => row_get r "ticker" = Some t) rows) with
  | Some r => Some r
  | None => dict_get d t
  end.
Proof.
  intros Ht. induction rows as [|row rows IH] using rev_ind; [done|].
  rewrite foldl_app, filter_app. simpl. rewrite dedupe_step_get by done.
  rewrite filter_cons, filter_nil. case_decide.
  - by rewrite last_snoc.
  - by rewrite app_nil_r, IH.
Qed.

Lemma dict_values_elem (d : list (string * Row)) r :
  dict_wf d -> r ∈ dict_values d <-> exists t, dict_get d t = Some r.
Proof.
  unfold dict_wf, dict_keys, dict_values.
  induction d as [|[k v] d IH]; simpl; intros Hnd.
  - split; [by intros ?%elem_of_nil | by intros [? ?]].
  - apply NoDup_cons in Hnd as [Hk Hnd]. rewrite elem_of_cons, IH by done.
    split.
    + intros [->|[t Ht]]; [exists k; by rewrite decide_True|].
      exists t. rewrite decide_False; [done|]. intros ->.
      apply Hk, list_elem_of_fmap. exists (k, r). split; [done|].
      by apply dict_get_elem.
    + intros [t Ht]. case_decide; [left; congruence | right; eauto].
Qed.
End dedupe.

(** ** Properties of the loaders *)

(** Membership in the deduplicated rows. *)
Lemma dedupe_by_ticker_elem rows r :
  r ∈ BuildLoaders.dedupe_by_ticker rows <->
  exists t, py_truthy t = true /\
    last (filter (fun r' => row_get r' "ticker" = Some t) rows) = Some r.
Proof.
  unfold BuildLoaders.dedupe_by_ticker.
  destruct (dedupe_loop_inv [] rows) as [Hwf Hd]; [split; [constructor | set_solver]|].
  rewrite dict_values_elem by done. split.
  - intros [t Ht]. pose proof (dict_get_elem _ _ _ Ht) as [_ Htr]%Hd.
    exists t. split; [done|]. rewrite dedupe_loop_get in Ht by done.
    by destruct (last _).
  - intros (t & Htr & Hl). exists t. by rewrite dedupe_loop_get, Hl.
Qed.

(** C20: [dedupe_by_ticker] keeps exactly, for every non-empty ticker, the
    last row of the input carrying that ticker (last write wins). *)
Theorem dedupe_by_ticker_spec rows r :
  r ∈ BuildLoaders.dedupe_by_ticker rows <->
  exists t, py_truthy t = true /\
    last (filter (fun r' => row_get r' "ticker" = Some t) rows) = Some r.
Proof. apply dedupe_by_ticker_elem. Qed.

(** The ticker column of the stored rows is the key list of the dict. *)
Lemma dedupe_values_tickers d :
  dedupe_inv d -> (fun r => row_get r "ticker") <$> dict_values d = Some <$> dict_keys d.
Proof.
  intros [_ Hd]. unfold dict_values, dict_keys. rewrite <- !list_fmap_compose.
  apply list_fmap_ext. intros i [t r] Hi. apply list_elem_of_lookup_2 in Hi. simpl.
  by destruct (Hd t r Hi) as [-> _].
Qed.

Lemma dedupe_by_ticker_inv rows : dedupe_inv (foldl BuildLoaders.dedupe_step [] rows).
Proof. apply dedupe_loop_inv. split; [constructor | set_solver]. Qed.

Lemma dedupe_by_ticker_nodup rows :
  NoDup ((fun r => row_get r "ticker") <$> BuildLoaders.dedupe_by_ticker rows).
Proof.
  unfold BuildLoaders.dedupe_by_ticker. pose proof (dedupe_by_ticker_inv rows) as Hinv.
  rewrite dedupe_values_tickers by done. apply NoDup_fmap_2; [apply _ | apply Hinv].
Qed.

(** C21: The deduplicated rows have pairwise distinct, non-empty tickers. *)
Theorem dedupe_by_ticker_unique rows :
  NoDup ((fun r => row_get r "ticker") <$> BuildLoaders.dedupe_by_ticker rows) /\
  forall r, r ∈ BuildLoaders.dedupe_by_ticker rows ->
    exists t, row_get r "ticker" = Some t /\ py_truthy t = true.
Proof.
  split; [apply dedupe_by_ticker_nodup|]. intros r Hr.
  destruct (dedupe_by_ticker_inv rows) as [_ Hd].
  apply list_elem_of_fmap in Hr as [[t r'] [-> Hin]]. exists t. by apply Hd.
Qed.

(** The non-empty tickers of [rows], in order, repetitions included. *)
Definition truthy_tickers (rows : list Row) : list string :=
  omap (fun r => match row_get r "ticker" with
                 | Some t => if py_truthy t then Some t else None
                 | None => None
                 end) rows.

Lemma truthy_tickers_length rows : List.length (truthy_tickers rows) <= List.length rows.
Proof.
  induction rows as [|r rows IH]; simpl; [lia|].
  destruct (row_get r "ticker"); [destruct (py_truthy _)|]; simpl; lia.
Qed.

(** The keys of the loop's dict are the truthy tickers seen so far. *)
Lemma dedupe_loop_keys d rows :
  list_to_set (dict_keys (foldl BuildLoaders.dedupe_step d rows)) =@{gset string}
  list_to_set (dict_keys d) ∪ list_to_set (truthy_tickers rows).
Proof.
  unfold truthy_tickers. revert d.
  induction rows as [|r rows IH]; intros d; simpl; [set_solver|].
  rewrite IH. unfold BuildLoaders.dedupe_step.
  destruct (row_get r "ticker") as [t|]; [destruct (py_truthy t)|]; simpl; [|set_solver..].
  rewrite dict_set_keys. case_decide; rewrite ?list_to_set_app_L; set_solver.
Qed.

(** Reference order of an ordered map's keys: the first occurrence of
    each element, in order. *)
Definition first_occurrences (l : list string) : list string :=
  reverse (remove_dups (reverse l)).

Lemma elem_of_first_occurrences l x : x ∈ first_occurrences l <-> x ∈ l.
Proof. unfold first_occurrences. by rewrite elem_of_reverse, elem_of_remove_dups, elem_of_reverse. Qed.

Lemma first_occurrences_snoc l x :
  first_occurrences (l ++ [x])%list
  = if decide (x ∈ l) then first_occurrences l else (first_occurrences l ++ [x])%list.
Proof.
  unfold first_occurrences. rewrite reverse_snoc. cbn [remove_dups].
  destruct (decide_rel _ x (reverse l)) as [H|H]; rewrite elem_of_reverse in H;
    [by rewrite decide_True | by rewrite decide_False, reverse_cons].
Qed.

(** The dict keeps each ticker at the position of its first occurrence. *)
Lemma dedupe_loop_order rows :
  dict_keys (foldl BuildLoaders.dedupe_step [] rows) = first_occurrences (truthy_tickers rows).
Proof.
  induction rows as [|r rows IH] using rev_ind; [done|].
  rewrite foldl_app. unfold truthy_tickers in *. rewrite omap_app.
  cbn [foldl omap list_omap]. unfold BuildLoaders.dedupe_step at 1.
  destruct (row_get r "ticker") as [t|]; [destruct (py_truthy t)|];
    rewrite ?app_nil_r; [|done..].
  rewrite dict_set_keys, IH, first_occurrences_snoc.
  destruct (decide (t ∈ omap _ rows)) as [Hin|Hin];
    [rewrite decide_True | rewrite decide_False]; rewrite ?elem_of_first_occurrences; done.
Qed.

(** C22: In [load_stocks] the new dataset wins over the legacy one: the last
    row of the new file with a given ticker is kept, and no other row
    with that ticker is. *)
Theorem load_stocks_new_wins fs country legacy new_rows r t :
  let c := py_replace (py_lower country) " " "_" in
  fs ("data/stocks/stocks_" ++ c ++ ".csv") = Some legacy ->
  (exists f, BuildLoaders.new_stock_file c = Some f /\ fs f = Some new_rows) ->
  row_get r "ticker" = Some t -> py_truthy t = true ->
  last (filter (fun r' => row_get r' "ticker" = Some t) new_rows) = Some r ->
  r ∈ BuildLoaders.load_stocks fs country /\
  forall r', r' ∈ BuildLoaders.load_stocks fs country ->
    row_get r' "ticker" = Some t -> r' = r.
Proof.
  intros c Hleg (f & Hf & Hnew) Hr Ht Hlast.
  unfold BuildLoaders.load_stocks, BuildLoaders._load_csv. fold c.
  rewrite Hleg, Hf, Hnew.
  assert (Hl : last (filter (fun r' => row_get r' "ticker" = Some t) (legacy ++ new_rows)%list)
               = Some r).
  { rewrite filter_app. destruct (filter _ new_rows) as [|x l] eqn:E; [done|].
    by rewrite last_app_cons. }
  split; [apply dedupe_by_ticker_elem; eauto|].
  intros r' (t' & Ht' & Hl')%dedupe_by_ticker_elem Hr'.
  apply last_Some in Hl' as [l' Hl'].
  assert (Hin : r' ∈ filter (fun r' => row_get r' "ticker" = Some t') (legacy ++ new_rows)%list)
    by (rewrite Hl'; set_solver).
  apply list_elem_of_filter in Hin as [Hrt' _].
  rewrite Hr' in Hrt'. injection Hrt' as <-.
  apply last_Some in Hl as [l Hl]. rewrite Hl in Hl'. by apply app_inj_tail in Hl' as [_ ->].
Qed.

(** C23: The source-tree [load_indices] succeeds exactly when its three
    files exist, with their rows concatenated in order, and raises
    [FileNotFoundError] for the first missing one otherwise. *)
Theorem src_load_indices_spec fs :
  SrcLoaders.load_indices fs =
  match fs "data/indices_india.csv", fs "data/indices_usa.csv",
        fs "data/indices_global.csv" with
  | Some a, Some b, Some c => Ok (a ++ b ++ c)%list
  | None, _, _ => Err (FileNotFoundError "data/indices_india.csv")
  | Some _, None, _ => Err (FileNotFoundError "data/indices_usa.csv")
  | Some _, Some _, None => Err (FileNotFoundError "data/indices_global.csv")
  end.
Proof.
  unfold SrcLoaders.load_indices. simpl. unfold SrcLoaders._load_csv, SrcLoaders.DATA_DIR.
  cbv [String.append].
  destruct (fs "data/indices_india.csv"), (fs "data/indices_usa.csv"),
    (fs "data/indices_global.csv"); simpl; try done. by rewrite app_assoc.
Qed.

(** C31: Bounds of the deduplication: [load_stocks] returns exactly one
    row per distinct non-empty ticker of the rows it read, hence never
    more rows than it read. *)
Theorem dedupe_by_ticker_count rows :
  List.length (BuildLoaders.dedupe_by_ticker rows)
  = size (list_to_set (truthy_tickers rows) : gset string)
  /\ List.length (BuildLoaders.dedupe_by_ticker rows) <= List.length rows.
Proof.
  pose proof (dedupe_by_ticker_inv rows) as [Hwf _].
  assert (Hk : List.length (BuildLoaders.dedupe_by_ticker rows)
               = List.length (dict_keys (foldl BuildLoaders.dedupe_step [] rows)))
    by (unfold BuildLoaders.dedupe_by_ticker, dict_values, dict_keys; by rewrite !length_fmap).
  assert (Hs : List.length (BuildLoaders.dedupe_by_ticker rows)
               = size (list_to_set (truthy_tickers rows) : gset string)).
  { rewrite Hk, <- (size_list_to_set (C := gset string)) by done.
    rewrite dedupe_loop_keys. f_equal. set_solver. }
  split; [done|]. rewrite Hk. etransitivity; [|apply truthy_tickers_length].
  apply NoDup_incl_length; [apply NoDup_ListNoDup, Hwf|]. intros x Hx%list_elem_of_In.
  apply list_elem_of_In. apply (elem_of_list_to_set (C := gset string)).
  assert (Hx' : x ∈ (list_to_set (dict_keys (foldl BuildLoaders.dedupe_step [] rows))
                      : gset string)) by (by apply elem_of_list_to_set).
  rewrite dedupe_loop_keys in Hx'. set_solver.
Qed.

(** C12: Order of the deduplicated rows: as in a Python [dict], each
    ticker keeps the position of its first occurrence in the rows read
    (legacy file first), while C20 gives it the content of its last
    occurrence; this is the "dataset order" of the India tie-breaks. *)
Theorem dedupe_by_ticker_order rows :
  (fun r => row_get r "ticker") <$> BuildLoaders.dedupe_by_ticker rows
  = Some <$> first_occurrences (truthy_tickers rows).
Proof.
  unfold BuildLoaders.dedupe_by_ticker.
  rewrite dedupe_values_tickers by apply dedupe_by_ticker_inv. by rewrite dedupe_loop_order.
Qed.

(** ** Witnesses *)

Definition witness_legacy_row : Row := <["name" := "Tata Motors Ltd"]> {["ticker" := "TATAMOTORS.NS"]}.
Definition witness_new_row : Row := <["name" := "Tata Motors"]> {["ticker" := "TATAMOTORS.NS"]}.

Definition witness_files : Files := fun path =>
  if String.eqb path "data/stocks/stocks_india.csv" then Some [witness_legacy_row]
  else if String.eqb path "data/new_stocks/india_stocks.csv" then Some [witness_new_row]
  else None.

Lemma load_stocks_new_wins_witness :
  witness_new_row ∈ BuildLoaders.load_stocks witness_files "India" /\
  forall r', r' ∈ BuildLoaders.load_stocks witness_files "India" ->
    row_get r' "ticker" = Some "TATAMOTORS.NS" -> r' = witness_new_row.
Proof.
  apply (load_stocks_new_wins _ _ [witness_legacy_row] [witness_new_row] _ "TATAMOTORS.NS");
    [vm_compute; reflexivity
    | exists "data/new_stocks/india_stocks.csv"; split; vm_compute; reflexivity
    | vm_compute; reflexivity | vm_compute; reflexivity | vm_compute; reflexivity].
Defined.
