(* ===== verification/Matcher.v ===== *)
(** * Matcher: the match cascade of the packaged [get_ticker]

    [match_rows] is lines 79-133 of
    [src/build/lib/market_tickers/core.py]: given the normalised query
    [norm_name], the stripped input [raw_name] (for messages), the
    lower-cased country and the rows of the selected dataset, it keeps
    the rows with a non-empty name and ticker, then tries

    - the exact tier: normalised name, or normalised ticker with "=x"
      removed, equal to the query.  One match returns it; several
      matches return the only ".NS" one when the country is "india" and
      otherwise raise the ambiguity [KeyError] (terminal);
    - the startswith tier: one match returns it; none or several fall
      through;
    - the contains tier: one match returns it; several return the first
      ".NS" one for "india" and otherwise raise the ambiguity
      [KeyError]; none raises "Ticker not found".

    Each tier is a stdpp [filter] over the valid rows, in dataset
    order, like the list comprehensions of the source. *)

From S2P Require Import Prelude PyStr Normalize Loaders.
Local Open Scope string_scope.

(** [r[k]] on a row known to hold a non-empty [k] (every use below is
    on a row of [valid_rows]). *)
Definition row_sub (r : Row) (k : string) : string := default "" (row_get r k).

(** Truth value of [r.get(k)]: present and non-empty. *)
Definition opt_truthy (o : option string) : bool :=
  match o with Some v => py_truthy v | None => false end.

(** [[r for r in rows if r.get("name") and r.get("ticker")]] *)
Definition valid_rows (rows : list Row) : list Row :=
  filter (fun r => opt_truthy (row_get r "name") && opt_truthy (row_get r "ticker") = true)
    rows.

Definition exact_match (norm_name : string) (r : Row) : Prop :=
  norm_name = normalize_strict (row_sub r "name")
  \/ norm_name = normalize_strict (py_replace (row_sub r "ticker") "=x" "").

Definition starts_match (norm_name : string) (r : Row) : Prop :=
  py_startswith (normalize_strict (row_sub r "name")) norm_name = true.

Definition contains_match (norm_name : string) (r : Row) : Prop :=
  py_in norm_name (normalize_strict (row_sub r "name")) = true.

#[export] Instance exact_match_dec q r : Decision (exact_match q r).
Proof. unfold exact_match. apply _. Defined.
#[export] Instance starts_match_dec q r : Decision (starts_match q r).
Proof. unfold starts_match. apply _. Defined.
#[export] Instance contains_match_dec q r : Decision (contains_match q r).
Proof. unfold contains_match. apply _. Defined.

(** [[r for r in xs if r["ticker"].endswith(".NS")]] *)
Definition nse_rows (xs : list Row) : list Row :=
  filter (fun r => py_endswith (row_sub r "ticker") ".NS" = true) xs.

Definition ambiguous_msg (raw_name : string) : string :=
  "'" ++ raw_name ++ "' is ambiguous. "
  ++ "Please use full company name (e.g. 'Reliance Industries').".

Definition not_found_msg (raw_name : string) : string :=
  "Ticker not found for: " ++ raw_name.

(** Lines 113-133: the contains tier and the final "not found". *)
Definition contains_tier (norm_name raw_name : string) (country : option string)
    (valid : list Row) : res string :=
  let contains := filter (contains_match norm_name) valid in
  match contains with
  | [r] => Ok (row_sub r "ticker")
  | [] => Err (KeyError (not_found_msg raw_name))
  | _ :: _ :: _ =>
      if bool_decide (country = Some "india") then
        match nse_rows contains with
        | r :: _ => Ok (row_sub r "ticker")
        | [] => Err (KeyError (ambiguous_msg raw_name))
        end
      else Err (KeyError (ambiguous_msg raw_name))
  end.

(** Lines 79-133. *)
Definition match_rows (norm_name raw_name : string) (country : option string)
    (rows : list Row) : res string :=
  let valid := valid_rows rows in
  let exact := filter (exact_match norm_name) valid in
  match exact with
  | [r] => Ok (row_sub r "ticker")
  | _ :: _ :: _ =>
      if bool_decide (country = Some "india") then
        match nse_rows exact with
        | [r] => Ok (row_sub r "ticker")
        | _ => Err (KeyError (ambiguous_msg raw_name))
        end
      else Err (KeyError (ambiguous_msg raw_name))
  | [] =>
      let starts := filter (starts_match norm_name) valid in
      match starts with
      | [r] => Ok (row_sub r "ticker")
      | _ => contains_tier norm_name raw_name country valid
      end
  end.

(** ** Lemmas *)

Lemma row_sub_valid r rows :
  r ∈ valid_rows rows -> row_get r "ticker" = Some (row_sub r "ticker").
Proof.
  unfold valid_rows. intros [Hr _]%list_elem_of_filter.
  apply andb_prop in Hr as [_ Ht]. unfold row_sub.
  by destruct (row_get r "ticker").
Qed.

(** A valid row's ticker is non-empty. *)
Lemma valid_ticker_truthy r rows t :
  r ∈ valid_rows rows -> row_get r "ticker" = Some t -> py_truthy t = true.
Proof.
  unfold valid_rows. intros [Hr _]%list_elem_of_filter Ht.
  rewrite Ht in Hr. by apply andb_prop in Hr as [_ ?].
Qed.

Lemma elem_of_filter_valid (P : Row -> Prop) `{!forall r, Decision (P r)} r rows :
  r ∈ filter P (valid_rows rows) -> r ∈ valid_rows rows.
Proof. by intros [_ ?]%list_elem_of_filter. Qed.

Lemma elem_of_nse r xs : r ∈ nse_rows xs -> r ∈ xs.
Proof. by intros [_ ?]%list_elem_of_filter. Qed.

#[export] Hint Resolve row_sub_valid elem_of_filter_valid elem_of_nse : tickers.

(** The head of a tier's match list is a valid row with that ticker. *)
Lemma tier_head_valid (P : Row -> Prop) `{!forall r, Decision (P r)} rows r l :
  filter P (valid_rows rows) = r :: l ->
  exists r', r' ∈ valid_rows rows /\ row_get r' "ticker" = Some (row_sub r "ticker").
Proof.
  intros E. exists r. split; eauto with tickers.
Qed.

Lemma nse_head_valid (P : Row -> Prop) `{!forall r, Decision (P r)} rows r l :
  nse_rows (filter P (valid_rows rows)) = r :: l ->
  exists r', r' ∈ valid_rows rows /\ row_get r' "ticker" = Some (row_sub r "ticker").
Proof.
  intros E. exists r. split; eauto with tickers.
Qed.

(** A prefix of the normalised name is a substring of it. *)
Lemma starts_contains q r : starts_match q r -> contains_match q r.
Proof.
  unfold starts_match, contains_match. rewrite py_startswith_spec, py_in_spec.
  intros [v ->]. by exists "", v.
Qed.

Lemma starts_nil_of_contains_nil q valid :
  filter (contains_match q) valid = [] -> filter (starts_match q) valid = [].
Proof.
  rewrite !filter_nil_forall. intros H r Hr Hs. by apply (H r Hr), starts_contains.
Qed.

Lemma not_found_ne_ambiguous raw : not_found_msg raw <> ambiguous_msg raw.
Proof. discriminate. Qed.

(** Close [exists r, r ∈ valid_rows rows /\ row_get r "ticker" = Some t]
    from the equation of the tier (or of its ".NS" sub-list) whose head
    was returned. *)
Ltac ok_row_valid :=
  match goal with
  | E : filter _ (valid_rows _) = ?r :: _ |- context [row_sub ?r _] =>
      by eapply tier_head_valid
  | E : nse_rows ?x = ?r :: _, E' : filter _ (valid_rows _) = ?x |- _ =>
      rewrite <- E' in E; by eapply nse_head_valid
  end.

Lemma contains_tier_not_found q raw country valid :
  contains_tier q raw country valid = Err (KeyError (not_found_msg raw)) ->
  filter (contains_match q) valid = [].
Proof.
  pose proof (not_found_ne_ambiguous raw). unfold contains_tier.
  destruct (filter (contains_match q) _) as [|y [|y' l]]; [done..|].
  repeat (case_match || case_bool_decide); congruence.
Qed.

(** Every [Ok] of the cascade is the ticker of a valid row. *)
Lemma match_rows_ok_valid q raw country rows t :
  match_rows q raw country rows = Ok t ->
  exists r, r ∈ valid_rows rows /\ row_get r "ticker" = Some t.
Proof.
  unfold match_rows, contains_tier. cbv zeta.
  repeat (case_match || case_bool_decide); intros Hok; simplify_eq; ok_row_valid.
Qed.

(** The ambiguity error comes from an exact or a substring tier with at
    least two matches. *)
Lemma match_rows_ambiguous_two q raw c rows :
  match_rows q raw c rows = Err (KeyError (ambiguous_msg raw)) ->
  exists x y l, filter (exact_match q) (valid_rows rows) = x :: y :: l
             \/ filter (contains_match q) (valid_rows rows) = x :: y :: l.
Proof.
  pose proof (not_found_ne_ambiguous raw).
  unfold match_rows, contains_tier. cbv zeta.
  repeat (case_match || case_bool_decide); intros Hamb; simplify_eq; eauto 6.
Qed.

(** The raw name only enters the error messages: a success does not
    depend on it. *)
Lemma match_rows_raw_ok q raw raw' c rows t :
  match_rows q raw c rows = Ok t -> match_rows q raw' c rows = Ok t.
Proof. unfold match_rows, contains_tier. cbv zeta. by repeat (case_match || case_bool_decide). Qed.

(** Two rows at the head of a tier of rows with distinct tickers have
    distinct tickers. *)
Lemma filter_two_distinct_tickers (P : Row -> Prop) `{!forall r, Decision (P r)} rows x y l :
  NoDup ((fun r => row_get r "ticker") <$> rows) ->
  filter P (valid_rows rows) = x :: y :: l ->
  row_get x "ticker" <> row_get y "ticker".
Proof.
  intros Hnd E. assert (Hs : (x :: y :: l) `sublist_of` rows).
  { rewrite <- E. etransitivity; apply sublist_filter. }
  apply (fmap_sublist (fun r => row_get r "ticker")), sublist_NoDup in Hs; [|done].
  apply NoDup_cons in Hs as [Hn _]. intros Heq. apply Hn. rewrite Heq. by left.
Qed.

(** ** Properties *)

(** C1: Every ticker the cascade returns is the ticker of a row of the
    dataset with a non-empty name and ticker. *)
Theorem match_rows_sound q raw country rows t :
  match_rows q raw country rows = Ok t ->
  exists r, r ∈ valid_rows rows /\ row_get r "ticker" = Some t.
Proof. apply match_rows_ok_valid. Qed.

(** C2: Exact-tier ambiguity is terminal: with two or more exact matches
    and no unique ".NS" match for "india", the cascade raises the
    ambiguity error whatever the later tiers would find. *)
Theorem exact_ambiguity_terminal q raw country rows :
  2 <= List.length (filter (exact_match q) (valid_rows rows)) ->
  country <> Some "india"
  \/ List.length (nse_rows (filter (exact_match q) (valid_rows rows))) <> 1 ->
  match_rows q raw country rows = Err (KeyError (ambiguous_msg raw)).
Proof.
  unfold match_rows. intros Hlen Hc.
  case_len Hlen.
  case_bool_decide; [|done]. destruct Hc as [Hc|Hc]; [congruence|].
  by destruct (nse_rows _) as [|? []].
Qed.

(** C3: India tie-break at the exact tier: among several exact matches the
    only ".NS" one is returned. *)
Theorem exact_india_tiebreak q raw rows r :
  2 <= List.length (filter (exact_match q) (valid_rows rows)) ->
  nse_rows (filter (exact_match q) (valid_rows rows)) = [r] ->
  match_rows q raw (Some "india") rows = Ok (row_sub r "ticker").
Proof.
  unfold match_rows. intros Hlen Hn.
  case_len Hlen.
  rewrite bool_decide_eq_true_2 by done. by rewrite Hn.
Qed.

(** C4: Startswith ambiguity is not terminal: with no exact match and zero
    or several prefix matches the result is the contains tier's. *)
Theorem startswith_falls_through q raw country rows :
  filter (exact_match q) (valid_rows rows) = [] ->
  List.length (filter (starts_match q) (valid_rows rows)) <> 1 ->
  match_rows q raw country rows = contains_tier q raw country (valid_rows rows).
Proof.
  unfold match_rows. intros He Hs. rewrite He.
  by destruct (filter (starts_match q) _) as [|r [|r' l]].
Qed.

(** C5: Contains-tier tie-break for "india": among several substring
    matches, the first ".NS" row in dataset order is returned. *)
Theorem contains_india_first q raw rows r rest :
  2 <= List.length (filter (contains_match q) (valid_rows rows)) ->
  nse_rows (filter (contains_match q) (valid_rows rows)) = r :: rest ->
  contains_tier q raw (Some "india") (valid_rows rows) = Ok (row_sub r "ticker").
Proof.
  unfold contains_tier. intros Hlen Hn.
  case_len Hlen.
  rewrite bool_decide_eq_true_2 by done. by rewrite Hn.
Qed.

(** C6: "Ticker not found" is raised exactly when no valid row matches the
    query exactly and none has it as a substring of its name. *)
Theorem match_rows_not_found q raw country rows :
  match_rows q raw country rows = Err (KeyError (not_found_msg raw)) <->
  forall r, r ∈ valid_rows rows -> ~ exact_match q r /\ ~ contains_match q r.
Proof.
  pose proof (not_found_ne_ambiguous raw) as Hne.
  split.
  - unfold match_rows.
    destruct (filter (exact_match q) _) as [|r [|r' l]] eqn:E;
      [| done | case_bool_decide; [destruct (nse_rows _) as [|? []]|]; congruence].
    intros Hc. assert (Hc' : filter (contains_match q) (valid_rows rows) = []).
    { destruct (filter (starts_match q) _) as [|x [|x' l']];
        [| done |]; by eapply contains_tier_not_found. }
    intros r Hr. split.
    + exact (proj1 (filter_nil_forall _ _) E r Hr).
    + exact (proj1 (filter_nil_forall _ _) Hc' r Hr).
  - intros Hall.
    assert (He : filter (exact_match q) (valid_rows rows) = [])
      by (apply filter_nil_forall; intros r Hr; apply (Hall r Hr)).
    assert (Hc : filter (contains_match q) (valid_rows rows) = [])
      by (apply filter_nil_forall; intros r Hr; apply (Hall r Hr)).
    unfold match_rows, contains_tier. rewrite He, Hc, starts_nil_of_contains_nil; done.
Qed.

(** C40: Composition with the packaged loader: on the stock rows
    [load_stocks] returns, the cascade's ambiguity error is genuine: the
    first two rows of the exact or substring tier that raised it have
    different tickers, so one security listed twice in the legacy and
    new files never makes a name ambiguous. *)
Theorem load_stocks_ambiguity_distinct fs country q raw c :
  match_rows q raw c (BuildLoaders.load_stocks fs country)
  = Err (KeyError (ambiguous_msg raw)) ->
  exists x y l,
    (filter (exact_match q) (valid_rows (BuildLoaders.load_stocks fs country)) = x :: y :: l
     \/ filter (contains_match q) (valid_rows (BuildLoaders.load_stocks fs country)) = x :: y :: l)
    /\ row_get x "ticker" <> row_get y "ticker".
Proof.
  intros (x & y & l & E)%match_rows_ambiguous_two.
  assert (Hnd : NoDup ((fun r => row_get r "ticker") <$> BuildLoaders.load_stocks fs country))
    by apply dedupe_by_ticker_nodup.
  exists x, y, l. split; [done|].
  destruct E as [E|E]; by eapply filter_two_distinct_tickers.
Qed.

(** ** Witnesses on the rows of the specification's examples *)

(** A dataset row with a name and a ticker. *)
Definition mk_row (name ticker : string) : Row :=
  <["name" := name]> {["ticker" := ticker]}.

Definition tata_rows : list Row :=
  [mk_row "Tata Motors" "TATAMOTORS.NS"; mk_row "Tata Motors" "TATAMTR.BO"].

Definition reliance_rows : list Row :=
  [mk_row "Reliance Industries" "RELIANCE.NS"; mk_row "Reliance Power" "RPOWER.NS"].

Lemma match_rows_sound_witness :
  match_rows "tatamotors" "Tata Motors" (Some "india") tata_rows = Ok "TATAMOTORS.NS" /\
  exists r, r ∈ valid_rows tata_rows /\ row_get r "ticker" = Some "TATAMOTORS.NS".
Proof.
  assert (H : match_rows "tatamotors" "Tata Motors" (Some "india") tata_rows
              = Ok "TATAMOTORS.NS") by reflexivity.
  split; [exact H | exact (match_rows_sound _ _ _ _ _ H)].
Defined.

Lemma exact_ambiguity_terminal_witness :
  match_rows "tatamotors" "Tata Motors" None tata_rows
  = Err (KeyError (ambiguous_msg "Tata Motors")).
Proof. apply exact_ambiguity_terminal; [vm_compute; lia | left; discriminate]. Defined.

Lemma exact_india_tiebreak_witness :
  match_rows "tatamotors" "Tata Motors" (Some "india") tata_rows
  = Ok (row_sub (mk_row "Tata Motors" "TATAMOTORS.NS") "ticker").
Proof. apply exact_india_tiebreak; [vm_compute; lia | reflexivity]. Defined.

Lemma startswith_falls_through_witness :
  match_rows "reliance" "Reliance" None reliance_rows
  = contains_tier "reliance" "Reliance" None (valid_rows reliance_rows).
Proof. apply startswith_falls_through; [reflexivity | vm_compute; lia]. Defined.

Lemma contains_india_first_witness :
  contains_tier "reliance" "Reliance" (Some "india") (valid_rows reliance_rows)
  = Ok (row_sub (mk_row "Reliance Industries" "RELIANCE.NS") "ticker").
Proof.
  apply (contains_india_first _ _ _ _ [mk_row "Reliance Power" "RPOWER.NS"]);
    [vm_compute; lia | reflexivity].
Defined.

Lemma match_rows_not_found_witness :
  match_rows "zzz" "Zzz" None tata_rows = Err (KeyError (not_found_msg "Zzz")).
Proof.
  apply match_rows_not_found. apply Forall_forall.
  apply (bool_decide_eq_true_1
    (Forall (fun r => ~ exact_match "zzz" r /\ ~ contains_match "zzz" r) (valid_rows tata_rows))).
  vm_compute. reflexivity.
Defined.

Definition tata_files : Files := fun path =>
  if String.eqb path "data/stocks/stocks_india.csv" then Some tata_rows else None.

Lemma load_stocks_ambiguity_distinct_witness :
  match_rows "tatamotors" "Tata Motors" None (BuildLoaders.load_stocks tata_files "india")
  = Err (KeyError (ambiguous_msg "Tata Motors")) /\
  exists x y l,
    (filter (exact_match "tatamotors") (valid_rows (BuildLoaders.load_stocks tata_files "india"))
     = x :: y :: l
     \/ filter (contains_match "tatamotors") (valid_rows (BuildLoaders.load_stocks tata_files "india"))
     = x :: y :: l)
    /\ row_get x "ticker" <> row_get y "ticker".
Proof.
  assert (H : match_rows "tatamotors" "Tata Motors" None (BuildLoaders.load_stocks tata_files "india")
              = Err (KeyError (ambiguous_msg "Tata Motors"))) by (vm_compute; reflexivity).
  split; [exact H | exact (load_stocks_ambiguity_distinct _ _ _ _ _ H)].
Defined.
