(* ===== verification/Resolver.v ===== *)
(** * Resolver: [get_ticker], [get_default_index] and [get] of the package

    Models [src/build/lib/market_tickers/core.py] against any
    [DatasetProvider] (the [load_*] functions the module imports).

    - [get_ticker] (lines 44-133): input validation, [strip], removal
      of "=x", strict normalisation, the [INDEX_ALIASES] shortcut, the
      six-letter currency shortcut, the category dispatch and the match
      cascade of [Matcher];
    - [get_default_index] (lines 140-145): the country table;
    - [get] (lines 152-192): index, currency, stock and ETF attempts,
      each inside [try/except Exception: pass], then "not found".

    [get_attempts] lists the attempts of [get] in the docstring's
    priority order, and [get] refines [first_ok] over them.  A Python
    argument that may be [None] is an [option string]; other non-string
    arguments are not modelled. *)

From S2P Require Import Prelude PyStr Normalize Loaders Matcher.
Local Open Scope string_scope.

Module Pkg.

(** Lines 25-37. *)
Definition INDEX_ALIASES : gmap string string :=
  list_to_map [
    ("nifty", "^NSEI"); ("nifty50", "^NSEI"); ("niftyfifty", "^NSEI");
    ("sensex", "^BSESN"); ("bse", "^BSESN");
    ("sp500", "^GSPC"); ("sandp500", "^GSPC"); ("s&p500", "^GSPC");
    ("dow", "^DJI"); ("dowjones", "^DJI");
    ("nasdaq", "^IXIC")].

(** [len(s) == 6 and s.isalpha()] *)
Definition currency_like (s : string) : bool :=
  Nat.eqb (String.length s) 6 && py_isalpha s.

(** Lines 67-77: the rows of a category. *)
Definition load_category `{P : DatasetProvider} (category : string)
    (country : option string) : res (list Row) :=
  if String.eqb category "index" then Ok load_indices
  else if String.eqb category "etf" then Ok load_etfs
  else if String.eqb category "currency" then Ok load_currencies
  else if String.eqb category "stock" then
    Ok (load_stocks (match country with
                     | Some c => if py_truthy c then c else "india"
                     | None => "india"
                     end))
  else Err (ValueError ("Unknown category: " ++ category)).

Definition invalid_name_msg : string := "name must be a non-empty string".

(** The query [get_ticker] matches against (lines 52-53). *)
Definition query_of (n : string) : string :=
  normalize_strict (py_replace (py_strip n) "=x" "").

(** Lines 44-133. *)
Definition get_ticker `{P : DatasetProvider} (name : option string)
    (country category : option string) : res string :=
  match name with
  | None => Err (ValueError invalid_name_msg)
  | Some name =>
      if String.eqb name "" then Err (ValueError invalid_name_msg) else
      let raw_name := py_strip name in
      let norm_name := query_of name in
      match INDEX_ALIASES !! norm_name with
      | Some t => Ok t
      | None =>
          if currency_like norm_name then Ok (py_upper norm_name ++ "=X") else
          let category := default "stock" category in
          let country := py_lower <$> country in
          (rows <-? load_category category country ;;
           match_rows norm_name raw_name country rows)%py
      end
  end.

(** Lines 140-145 ([country] defaults to "india" in the source). *)
Definition get_default_index (stock_name country : string) : res string :=
  let c := py_lower country in
  if String.eqb c "india" then Ok "^NSEI"
  else if String.eqb c "us" || String.eqb c "usa" || String.eqb c "united_states"
  then Ok "^GSPC"
  else Err (ValueError ("No default index defined for country: " ++ country)).

(** The substrings of line 166 that make a name look like an index. *)
Definition index_keywords : list string := ["nifty"; "sensex"; "dow"; "nasdaq"; "sp"].

Definition index_like (name_norm : string) : bool :=
  bool_decide (is_Some (INDEX_ALIASES !! name_norm))
  || existsb (fun k => py_in k name_norm) index_keywords.

(** Lines 152-192.  Each [try: return ... except Exception: pass] is a
    [try_except] whose handler runs the rest of the function. *)
Definition get `{P : DatasetProvider} (name : option string) (country : option string)
    : res string :=
  match name with
  | None => Err (AttributeError "'NoneType' object has no attribute 'lower'")
  | Some n =>
      let name_norm := normalize_strict n in
      let not_found := Err (KeyError ("Ticker not found for: " ++ n)) in
      let etf_step := try_except (get_ticker (Some n) None (Some "etf"))
                        (fun _ => not_found) in
      let stock_step := try_except (get_ticker (Some n) country (Some "stock"))
                          (fun _ => etf_step) in
      let currency_step :=
        if currency_like name_norm
        then try_except (get_ticker (Some n) None (Some "currency")) (fun _ => stock_step)
        else stock_step in
      if index_like name_norm
      then try_except (get_ticker (Some n) None (Some "index")) (fun _ => currency_step)
      else currency_step
  end.

(** The specification of [get]: its attempts in the priority order of the
    docstring, each present only when its guard holds. *)
Definition get_attempts `{P : DatasetProvider} (n : string) (country : option string)
    : list (res string) :=
  let name_norm := normalize_strict n in
  ((if index_like name_norm then [get_ticker (Some n) None (Some "index")] else [])
   ++ (if currency_like name_norm then [get_ticker (Some n) None (Some "currency")] else [])
   ++ [get_ticker (Some n) country (Some "stock"); get_ticker (Some n) None (Some "etf")])%list.

(** A small bundle of data files for the witnesses: the Indian stock
    file holds the specification's Tata Motors and Reliance rows. *)
Definition demo_files : Files := fun path =>
  if String.eqb path "data/stocks/stocks_india.csv" then Some (tata_rows ++ reliance_rows)%list
  else if String.eqb path "data/stocks/stocks_us.csv" then
    Some [mk_row "Apple Inc" "AAPL"; mk_row "Nvidia" "NVDA"]
  else if String.eqb path "data/new_stocks/us_stocks.csv" then
    Some [mk_row "Alphabet Inc" "GOOGL"]
  else if String.eqb path "data/etfs/etfs.csv" then
    Some [mk_row "Apple Inc" "AAPL.ETF"; mk_row "Tata Motors ETF" "TATAETF.NS"]
  else if String.eqb path "data/indices/indices.csv" then
    Some [mk_row "Nifty 50" "^NSEI"; mk_row "S&P 500" "^GSPC"]
  else None.

Definition demo : DatasetProvider := files_provider demo_files.

(** ** Lemmas *)

(** Unfold [get_ticker] on a non-empty name [n] ([Hn : n <> ""]). *)
Ltac unfold_get_ticker Hn :=
  unfold get_ticker; rewrite (proj2 (String.eqb_neq _ _) Hn); cbv zeta.

Lemma try_except_ok_inv {A} (m : res A) k a :
  try_except m (fun _ => k) = Ok a -> m = Ok a \/ k = Ok a.
Proof. destruct m; simpl; auto. Qed.

Lemma alias_truthy k t : INDEX_ALIASES !! k = Some t -> py_truthy t = true.
Proof.
  unfold INDEX_ALIASES. intros H%elem_of_list_to_map_2.
  repeat (rewrite elem_of_cons in H; destruct H as [H|H]; [by simplify_eq|]).
  by apply elem_of_nil in H.
Qed.

(** Every ticker [get_ticker] returns is non-empty. *)
Lemma get_ticker_truthy `{P : DatasetProvider} n country category t :
  get_ticker (Some n) country category = Ok t -> py_truthy t = true.
Proof.
  destruct (String.eqb_spec n "") as [->|Hn]; [intros [=]|].
  unfold_get_ticker Hn.
  destruct (INDEX_ALIASES !! _) eqn:Ha; [intros [= <-]; by eapply alias_truthy|].
  destruct (currency_like _); [intros [= <-]; by destruct (py_upper _)|].
  destruct (load_category _ _) as [rows|e]; [|intros [=]].
  intros (r & Hr & Ht)%match_rows_ok_valid. by eapply valid_ticker_truthy.
Qed.

Lemma filter_starts_empty (l : list Row) : filter (starts_match "") l = l.
Proof.
  induction l as [|r l IH]; [done|]. rewrite filter_cons, decide_True, IH; [done|].
  unfold starts_match, py_startswith. apply prefix_empty.
Qed.

Lemma filter_contains_empty (l : list Row) : filter (contains_match "") l = l.
Proof.
  induction l as [|r l IH]; [done|]. rewrite filter_cons, decide_True, IH; [done|].
  unfold contains_match. rewrite py_in_unfold, prefix_empty. done.
Qed.

(** An FX query is made of lower-case letters: it is strictly normalised
    ([a-z0-9]) and alphabetic. *)
Lemma query_of_chars n : str_forallb is_norm_char (query_of n) = true.
Proof. apply normalize_strict_chars. Qed.

Lemma fx_query_lower n : currency_like (query_of n) = true -> str_forallb is_lower (query_of n) = true.
Proof.
  unfold currency_like, py_isalpha. intros [_ Ha]%andb_prop.
  pose proof (query_of_chars n) as Hn. destruct (query_of n) as [|c q]; [done|].
  revert Ha Hn. generalize (String c q). clear c q. intros s.
  induction s as [|c s IH]; [done|]. simpl.
  intros [Ha Has]%andb_prop [Hn Hns]%andb_prop. rewrite IH by done.
  revert Ha Hn. destruct c as [[] [] [] [] [] [] [] []]; vm_compute; congruence.
Qed.

(** Without a lower-case "=x", the query of [get_ticker] is the strict
    normal form [get] computes. *)
Lemma query_of_plain n : py_in "=x" n = false -> query_of n = normalize_strict n.
Proof.
  intros Hx. unfold query_of. rewrite py_replace_absent; [apply normalize_strict_strip | done |].
  destruct (py_in "=x" (py_strip n)) eqn:E; [|done]. apply py_in_strip in E. congruence.
Qed.

(** The datasets [load_category] reads, per category. *)
Lemma load_category_ok `{P : DatasetProvider} cat country rows :
  load_category cat country = Ok rows ->
  (cat = "index" /\ rows = load_indices) \/ (cat = "etf" /\ rows = load_etfs)
  \/ (cat = "currency" /\ rows = load_currencies)
  \/ (cat = "stock" /\ rows = load_stocks (match country with
                                           | Some c => if py_truthy c then c else "india"
                                           | None => "india"
                                           end)).
Proof.
  unfold load_category.
  repeat (case_match; [rewrite String.eqb_eq in *; subst; intros [= <-]; naive_solver|]).
  intros [=].
Qed.

(** An FX query typed back with its lower-case suffix is recognised. *)
Lemma query_of_fx q : str_forallb is_lower q = true -> query_of (q ++ "=x") = q.
Proof.
  intros Hl. unfold query_of.
  rewrite py_strip_id, py_replace_app_old, string_app_nil_r.
  - apply normalize_strict_fixed.
    refine (str_forallb_impl _ _ _ _ Hl). intros c. destruct c as [[] [] [] [] [] [] [] []]; done.
  - refine (str_forallb_impl _ _ _ _ Hl). intros c. destruct c as [[] [] [] [] [] [] [] []]; done.
  - rewrite str_forallb_app. apply andb_true_intro. split; [|done].
    refine (str_forallb_impl _ _ _ _ Hl). intros c. destruct c as [[] [] [] [] [] [] [] []]; done.
Qed.

(** The canonical upper-case FX ticker keeps its "=X", whose "X" the
    normalisation turns into a seventh letter. *)
Lemma query_of_upper_fx q :
  str_forallb is_lower q = true ->
  py_strip (py_upper q ++ "=X") = py_upper q ++ "=X" /\
  query_of (py_upper q ++ "=X") = q ++ "x".
Proof.
  intros Hl.
  assert (Hu : str_forallb (fun c => is_upper c || (c =? "=")%char) (py_upper q ++ "=X") = true).
  { rewrite str_forallb_app, andb_true_r. unfold py_upper. rewrite str_forallb_map.
    refine (str_forallb_impl _ _ _ _ Hl). intros c. destruct c as [[] [] [] [] [] [] [] []]; done. }
  assert (Hs : py_strip (py_upper q ++ "=X") = py_upper q ++ "=X").
  { apply py_strip_id. refine (str_forallb_impl _ _ _ _ Hu).
    intros c. destruct c as [[] [] [] [] [] [] [] []]; done. }
  split; [done|]. unfold query_of. rewrite Hs, py_replace_absent; [|done|].
  - unfold normalize_strict, py_lower. rewrite str_map_app. fold (py_lower (py_upper q)).
    rewrite py_lower_upper, str_filter_app, (str_filter_all _ q) by
      (done || (refine (str_forallb_impl _ _ _ _ Hl); intros c;
                destruct c as [[] [] [] [] [] [] [] []]; done)).
    reflexivity.
  - by apply (py_in_forallb _ _ _ Hu).
Qed.

(** No alias key is six characters followed by "x". *)
Lemma alias_none_seven q : String.length q = 6 -> INDEX_ALIASES !! (q ++ "x") = None.
Proof.
  intros Hq. do 6 (destruct q as [|? q]; [done|]). destruct q; [|done].
  destruct (INDEX_ALIASES !! _) eqn:E; [|done]. exfalso.
  unfold INDEX_ALIASES in E. apply elem_of_list_to_map_2 in E.
  repeat (rewrite elem_of_cons in E; destruct E as [E|E]; [by simplify_eq|]).
  by apply elem_of_nil in E.
Qed.

Lemma currency_like_lower q :
  String.length q = 6 -> str_forallb is_lower q = true -> currency_like q = true.
Proof.
  intros Hq Hl. unfold currency_like, py_isalpha. rewrite Hq. destruct q; [done|].
  refine (str_forallb_impl _ _ _ _ Hl). intros c. destruct c as [[] [] [] [] [] [] [] []]; done.
Qed.

(** Only the index dataset lives at "data/indices/indices.csv". *)
Lemma stocks_path_not_indices c : "data/stocks/stocks_" ++ c ++ ".csv" <> "data/indices/indices.csv".
Proof. by intros ?; simplify_eq. Qed.

Lemma new_stock_file_not_indices c f :
  BuildLoaders.new_stock_file c = Some f -> f <> "data/indices/indices.csv".
Proof. unfold BuildLoaders.new_stock_file. repeat case_match; by intros [= <-]. Qed.

Section index_file.
Variables fs1 fs2 : Files.
Hypothesis Hfs : forall p, p <> "data/indices/indices.csv" -> fs1 p = fs2 p.

Lemma load_category_index_frame cat country :
  cat <> "index" ->
  load_category (P := files_provider fs1) cat country
  = load_category (P := files_provider fs2) cat country.
Proof.
  intros Hcat. unfold load_category. rewrite (proj2 (String.eqb_neq _ _) Hcat). cbn.
  unfold BuildLoaders.load_stocks, BuildLoaders.load_etfs, BuildLoaders.load_currencies,
    BuildLoaders._load_csv.
  rewrite !Hfs by (apply stocks_path_not_indices || discriminate).
  by repeat (case_match; rewrite ?Hfs by (eapply new_stock_file_not_indices; eauto)).
Qed.

Lemma get_ticker_index_frame n country category :
  default "stock" category <> "index" ->
  get_ticker (P := files_provider fs1) n country category
  = get_ticker (P := files_provider fs2) n country category.
Proof.
  intros Hcat. unfold get_ticker. repeat case_match; try done.
  all: by rewrite load_category_index_frame.
Qed.
End index_file.

(** ** Properties of [get_ticker] *)

(** C7: An index alias is answered from the static table whatever the
    dataset provider holds: no dataset is consulted. *)
Theorem alias_shortcut_any_provider (P : DatasetProvider) n country category t :
  n <> "" -> INDEX_ALIASES !! query_of n = Some t ->
  get_ticker (Some n) country category = Ok t.
Proof.
  intros Hn Ha. unfold_get_ticker Hn.
  by rewrite Ha.
Qed.

(** C17: The alias key "s&p500" is dead: it is in [INDEX_ALIASES], but the
    strict normalisation used for the lookup never produces "&". *)
Theorem alias_amp_key_unreachable n :
  INDEX_ALIASES !! "s&p500" = Some "^GSPC" /\ query_of n <> "s&p500".
Proof.
  split; [vm_compute; reflexivity|]. intros Hq.
  pose proof (query_of_chars n) as Hc. rewrite Hq in Hc. vm_compute in Hc. discriminate.
Qed.

(** C13: Round trip of the FX shortcut: the ticker "<QUERY>=X" it
    returns, typed back in lower case, resolves to itself, in every
    category and for every provider. *)
Theorem get_ticker_fx_roundtrip `{P : DatasetProvider} n country category t country' category' :
  INDEX_ALIASES !! query_of n = None -> currency_like (query_of n) = true ->
  get_ticker (Some n) country category = Ok t ->
  get_ticker (Some (py_lower t)) country' category' = Ok t.
Proof.
  intros Ha Hc. pose proof (fx_query_lower n Hc) as Hl.
  assert (Hn : n <> "") by (intros ->; vm_compute in Hc; discriminate).
  intros Ht. assert (Et : t = py_upper (query_of n) ++ "=X").
  { revert Ht. unfold_get_ticker Hn. rewrite Ha, Hc. by intros [= <-]. }
  subst t. unfold py_lower at 1. rewrite str_map_app. fold (py_lower (py_upper (query_of n))).
  rewrite py_lower_upper by done. change (str_map char_lower "=X") with "=x".
  assert (Hne : query_of n ++ "=x" <> "") by (by destruct (query_of n)).
  unfold_get_ticker Hne.
  change (query_of (query_of n ++ "=x"))
    with (normalize_strict (py_replace (py_strip (query_of n ++ "=x")) "=x" "")).
  rewrite py_strip_id, py_replace_app_old, string_app_nil_r.
  - rewrite normalize_strict_fixed by apply normalize_strict_chars. by rewrite Ha, Hc.
  - refine (str_forallb_impl _ _ _ _ Hl). intros c. destruct c as [[] [] [] [] [] [] [] []]; done.
  - rewrite str_forallb_app. apply andb_true_intro. split; [|done].
    refine (str_forallb_impl _ _ _ _ Hl). intros c. destruct c as [[] [] [] [] [] [] [] []]; done.
Qed.

(** C9: A six-letter alphabetic query that is not an alias becomes the FX
    ticker "<QUERY>=X" in every category and for every provider. *)
Theorem currency_shortcut `{P : DatasetProvider} n country category :
  n <> "" -> INDEX_ALIASES !! query_of n = None -> currency_like (query_of n) = true ->
  get_ticker (Some n) country category = Ok (py_upper (query_of n) ++ "=X") /\
  py_endswith (py_upper (query_of n) ++ "=X") "=X" = true.
Proof.
  intros Hn Ha Hc. split.
  - unfold_get_ticker Hn. by rewrite Ha, Hc.
  - apply py_endswith_spec. eauto.
Qed.

(** C8: Every ticker [get_ticker] returns is the [INDEX_ALIASES] entry of
    the query, or, when the query is no alias and six letters, the FX
    ticker "<QUERY>=X", or, when it is neither, the ticker of a valid
    row of the dataset of the requested category: the index, ETF or
    currency file, or the stock file of the lower-cased country
    ("india" when it is absent or empty). *)
Theorem get_ticker_sound `{P : DatasetProvider} n country category t :
  get_ticker (Some n) country category = Ok t ->
  INDEX_ALIASES !! query_of n = Some t
  \/ (INDEX_ALIASES !! query_of n = None
      /\ String.length (query_of n) = 6 /\ py_isalpha (query_of n) = true
      /\ t = py_upper (query_of n) ++ "=X")
  \/ (INDEX_ALIASES !! query_of n = None
      /\ ~ (String.length (query_of n) = 6 /\ py_isalpha (query_of n) = true)
      /\ exists rows r, r ∈ valid_rows rows /\ row_get r "ticker" = Some t
      /\ let cat := default "stock" category in
         (cat = "index" /\ rows = load_indices) \/ (cat = "etf" /\ rows = load_etfs)
         \/ (cat = "currency" /\ rows = load_currencies)
         \/ (cat = "stock" /\ rows = load_stocks (match country with
                                   | Some c => if py_truthy (py_lower c) then py_lower c else "india"
                                   | None => "india"
                                   end))).
Proof.
  destruct (String.eqb_spec n "") as [->|Hn]; [intros [=]|].
  unfold_get_ticker Hn.
  destruct (INDEX_ALIASES !! _) eqn:Ha; [intros [= <-]; by left|].
  destruct (currency_like _) eqn:Hc; unfold currency_like in Hc;
    [intros [= <-]; right; left; apply andb_prop in Hc as [Hc1 Hc2];
     apply Nat.eqb_eq in Hc1; done|].
  destruct (load_category _ _) as [rows|e] eqn:Hl; [|intros [=]].
  intros (r & Hr & Ht)%match_rows_ok_valid. right; right. split; [done|]. split.
  - intros [H1 H2]. apply Nat.eqb_eq in H1. by rewrite H1, H2 in Hc.
  - exists rows, r. split_and!; [done..|]. apply load_category_ok in Hl.
    by destruct country.
Qed.

(** C14: An unknown category raises [ValueError] once the shortcuts miss. *)
Theorem unknown_category_error `{P : DatasetProvider} n country cat :
  n <> "" -> INDEX_ALIASES !! query_of n = None -> currency_like (query_of n) = false ->
  cat ∉ ["index"; "etf"; "currency"; "stock"] ->
  get_ticker (Some n) country (Some cat) = Err (ValueError ("Unknown category: " ++ cat)).
Proof.
  intros Hn Ha Hc Hcat. unfold_get_ticker Hn.
  rewrite Ha, Hc. unfold load_category. simpl.
  rewrite !(proj2 (String.eqb_neq _ _)) by set_solver. done.
Qed.

(** C15: A name made only of punctuation normalises to the empty query,
    which is a prefix and a substring of every name: with country
    "india" it resolves to the first ".NS" stock of the dataset. *)
Theorem punctuation_name_first_nse `{P : DatasetProvider} n r rest :
  n <> "" -> query_of n = "" ->
  filter (exact_match "") (valid_rows (load_stocks "india")) = [] ->
  2 <= List.length (valid_rows (load_stocks "india")) ->
  nse_rows (valid_rows (load_stocks "india")) = r :: rest ->
  get_ticker (Some n) (Some "india") None = Ok (row_sub r "ticker").
Proof.
  intros Hn Hq He Hlen Hnse. unfold_get_ticker Hn.
  rewrite Hq.
  change (INDEX_ALIASES !! "") with (@None string).
  change (py_lower <$> Some "india") with (Some "india"). simpl.
  unfold match_rows. cbv zeta. rewrite He, filter_starts_empty.
  unfold contains_tier. rewrite filter_contains_empty.
  case_len Hlen.
  rewrite Hnse. done.
Qed.

(** ** Properties of [get] and [get_default_index] *)



(** C36: [get] answers a six-letter alphabetic name (with no "=x") that is
    not an alias as the FX pair "<NAME>=X", whatever the provider holds:
    every attempt of its cascade takes the shortcut of [get_ticker], so
    no dataset, the currency one included, is ever read. *)
Theorem get_fx_pair_no_dataset `{P : DatasetProvider} n country :
  py_in "=x" n = false -> INDEX_ALIASES !! normalize_strict n = None ->
  currency_like (normalize_strict n) = true ->
  get (Some n) country = Ok (py_upper (normalize_strict n) ++ "=X").
Proof.
  intros Hx Ha Hc.
  assert (Hn : n <> "") by (intros ->; vm_compute in Hc; discriminate).
  assert (Ht : forall cty cat,
    get_ticker (Some n) cty cat = Ok (py_upper (normalize_strict n) ++ "=X")).
  { intros cty cat. unfold_get_ticker Hn.
    by rewrite (query_of_plain n Hx), Ha, Hc. }
  unfold get. cbv beta iota zeta. rewrite Hc, !Ht. by destruct (index_like _).
Qed.

(** C37: Refinement: [get] returns the first success among its attempts
    (index if the name looks like an index, currency if it looks like an
    FX pair, then stock, then ETF), and raises "Ticker not found" when
    all of them fail. *)
Theorem get_refines_first_ok `{P : DatasetProvider} n country :
  get (Some n) country =
  first_ok (get_attempts n country) (KeyError ("Ticker not found for: " ++ n)).
Proof.
  unfold get, get_attempts. cbv beta iota zeta.
  destruct (index_like _), (currency_like _); cbn [app]; by rewrite !first_ok_cons.
Qed.

(** C25: Well-typed results: every ticker [get] returns is a non-empty
    string, whatever the provider: alias targets, FX tickers and the
    tickers of valid rows are all non-empty. *)
Theorem get_result_truthy `{P : DatasetProvider} n country t :
  get (Some n) country = Ok t -> py_truthy t = true.
Proof.
  unfold get. cbv beta iota zeta. intros Hg.
  repeat match type of Hg with
    | try_except _ _ = Ok _ => apply try_except_ok_inv in Hg as [Hg|Hg]
    | (if ?b then _ else _) = _ => destruct b
    end; try discriminate; by eapply get_ticker_truthy.
Qed.

(** C19: [get_default_index] answers from the country alone: "^NSEI" for
    India, "^GSPC" for the three US spellings, in any letter case. *)
Theorem get_default_index_spec stock_name country t :
  get_default_index stock_name country = Ok t <->
  (py_lower country = "india" /\ t = "^NSEI")
  \/ (py_lower country ∈ ["us"; "usa"; "united_states"] /\ t = "^GSPC").
Proof.
  unfold get_default_index.
  destruct (String.eqb_spec (py_lower country) "india") as [Hi|Hi].
  - rewrite Hi. split; [intros [= <-]; by left|].
    intros [[_ ->]|[Hin _]]; [done|]. set_solver.
  - destruct (String.eqb_spec (py_lower country) "us") as [Hu|Hu];
      [|destruct (String.eqb_spec (py_lower country) "usa") as [Ha|Ha];
        [|destruct (String.eqb_spec (py_lower country) "united_states") as [Hs|Hs]]];
      simpl; (split; [intros [= <-]; right; split; [set_solver | done]
                     | intros [[? _]|[? ->]]; [done | done]])
        || (split; [intros [=] | intros [[? _]|[Hin _]]; [done | set_solver]]).
Qed.

(** ** Behaviours the modelling exposed *)

(** C16: Spelling invariance: a non-empty name with the same query as a
    name that resolves (the same letters and digits up to case, with
    whitespace and a lower-case "=x" ignored) resolves to the same
    ticker, in every category and for every provider. *)
Theorem get_ticker_query_invariant `{P : DatasetProvider} n n' country category t :
  n' <> "" -> query_of n' = query_of n ->
  get_ticker (Some n) country category = Ok t ->
  get_ticker (Some n') country category = Ok t.
Proof.
  intros Hn' Hq. destruct (String.eqb_spec n "") as [->|Hn]; [intros [=]|].
  unfold get_ticker. rewrite !(proj2 (String.eqb_neq _ _)) by done. cbv zeta. rewrite Hq.
  destruct (INDEX_ALIASES !! _); [done|]. destruct (currency_like _); [done|].
  destruct (load_category _ _); [apply match_rows_raw_ok | done].
Qed.

(** C18: The "=x" suffix is removed only in lower case: for every six
    lower-case letters [q] that are not an alias, "q=x" takes the FX
    shortcut, while the canonical ticker "Q=X" normalises to the
    seven-letter "qx", misses both shortcuts and is searched in the
    dataset of the category, for every provider. *)
Theorem fx_suffix_case_sensitive `{P : DatasetProvider} q country category :
  String.length q = 6 -> str_forallb is_lower q = true -> INDEX_ALIASES !! q = None ->
  get_ticker (Some (q ++ "=x")) country category = Ok (py_upper q ++ "=X") /\
  get_ticker (Some (py_upper q ++ "=X")) country category =
  (rows <-? load_category (default "stock" category) (py_lower <$> country) ;;
   match_rows (q ++ "x") (py_upper q ++ "=X") (py_lower <$> country) rows)%py.
Proof.
  intros Hlen Hl Ha. destruct (query_of_upper_fx q Hl) as [Hs Hu]. split.
  - assert (Hne : q ++ "=x" <> "") by (by destruct q).
    unfold_get_ticker Hne. by rewrite query_of_fx, Ha, currency_like_lower.
  - assert (Hne : py_upper q ++ "=X" <> "") by (by destruct (py_upper q)).
    unfold_get_ticker Hne. rewrite Hs, Hu, alias_none_seven by done.
    unfold currency_like. by rewrite string_length_app, Hlen.
Qed.

(** C39: The country spellings of [get_default_index] and [load_stocks]
    disagree: every spelling of "usa" is a US country for
    [get_default_index], but [load_stocks] then reads only the legacy
    file "stocks_usa.csv" and no new dataset, while "us" reads
    "stocks_us.csv" and the new US file, whatever the files hold. *)
Theorem country_usa_inconsistent fs stock_name c :
  py_lower c = "usa" ->
  get_default_index stock_name c = Ok "^GSPC" /\
  BuildLoaders.load_stocks fs c
  = BuildLoaders.dedupe_by_ticker (BuildLoaders._load_csv fs "data/stocks/stocks_usa.csv") /\
  BuildLoaders.load_stocks fs "us"
  = BuildLoaders.dedupe_by_ticker
      (BuildLoaders._load_csv fs "data/stocks/stocks_us.csv"
       ++ BuildLoaders._load_csv fs "data/new_stocks/us_stocks.csv")%list.
Proof.
  intros Hc. split; [unfold get_default_index; by rewrite Hc|].
  unfold BuildLoaders.load_stocks at 1. rewrite Hc.
  rewrite <- (app_nil_r (BuildLoaders._load_csv fs "data/stocks/stocks_usa.csv")).
  split; vm_compute; reflexivity.
Qed.

(** C34: [get] reads the index file only for a name that looks like an
    index: otherwise, two bundles of data files that differ only in
    "data/indices/indices.csv" give the same answer, error included. *)
Theorem get_index_file_unread fs1 fs2 n country :
  (forall p, p <> "data/indices/indices.csv" -> fs1 p = fs2 p) ->
  index_like (normalize_strict n) = false ->
  get (P := files_provider fs1) (Some n) country = get (P := files_provider fs2) (Some n) country.
Proof.
  intros Hfs Hi. unfold get. cbv beta iota zeta. rewrite Hi.
  by rewrite !(get_ticker_index_frame fs1 fs2 Hfs) by discriminate.
Qed.

(** ** Witnesses *)

Lemma alias_shortcut_any_provider_witness :
  get_ticker (P := demo) (Some "Nifty 50") None None = Ok "^NSEI".
Proof. apply alias_shortcut_any_provider; [discriminate | vm_compute; reflexivity]. Defined.

Lemma currency_shortcut_witness :
  get_ticker (P := demo) (Some "USDINR") None None = Ok (py_upper (query_of "USDINR") ++ "=X")
  /\ py_endswith (py_upper (query_of "USDINR") ++ "=X") "=X" = true.
Proof. apply currency_shortcut; [discriminate | vm_compute; reflexivity | vm_compute; reflexivity]. Defined.

Lemma get_ticker_sound_witness :
  get_ticker (P := demo) (Some "Apple Inc") (Some "us") None = Ok "AAPL" /\
  (INDEX_ALIASES !! query_of "Apple Inc" = Some "AAPL"
   \/ (INDEX_ALIASES !! query_of "Apple Inc" = None
       /\ String.length (query_of "Apple Inc") = 6 /\ py_isalpha (query_of "Apple Inc") = true
       /\ "AAPL" = py_upper (query_of "Apple Inc") ++ "=X")
   \/ (INDEX_ALIASES !! query_of "Apple Inc" = None
       /\ ~ (String.length (query_of "Apple Inc") = 6 /\ py_isalpha (query_of "Apple Inc") = true)
       /\ exists rows r, r ∈ valid_rows rows /\ row_get r "ticker" = Some "AAPL"
       /\ let cat := default "stock" None in
          (cat = "index" /\ rows = load_indices (DatasetProvider := demo))
          \/ (cat = "etf" /\ rows = load_etfs (DatasetProvider := demo))
          \/ (cat = "currency" /\ rows = load_currencies (DatasetProvider := demo))
          \/ (cat = "stock" /\ rows = load_stocks (DatasetProvider := demo)
                (match Some "us" with
                 | Some c => if py_truthy (py_lower c) then py_lower c else "india"
                 | None => "india"
                 end)))).
Proof.
  assert (H : get_ticker (P := demo) (Some "Apple Inc") (Some "us") None = Ok "AAPL")
    by (vm_compute; reflexivity).
  split; [exact H | exact (get_ticker_sound _ _ _ _ H)].
Defined.

Lemma get_ticker_query_invariant_witness :
  get_ticker (P := demo) (Some " APPLE-inc. ") (Some "us") None = Ok "AAPL".
Proof.
  apply (get_ticker_query_invariant "Apple Inc"); [discriminate | vm_compute; reflexivity |].
  vm_compute; reflexivity.
Defined.

Lemma fx_suffix_case_sensitive_witness :
  get_ticker (P := demo) (Some ("eurusd" ++ "=x")) None None = Ok (py_upper "eurusd" ++ "=X") /\
  get_ticker (P := demo) (Some (py_upper "eurusd" ++ "=X")) None None =
  (rows <-? load_category (P := demo) (default "stock" None) (py_lower <$> None) ;;
   match_rows ("eurusd" ++ "x") (py_upper "eurusd" ++ "=X") (py_lower <$> None) rows)%py.
Proof. apply fx_suffix_case_sensitive; vm_compute; reflexivity. Defined.

Lemma country_usa_inconsistent_witness :
  get_default_index "Alphabet Inc" "USA" = Ok "^GSPC" /\
  BuildLoaders.load_stocks demo_files "USA"
  = BuildLoaders.dedupe_by_ticker (BuildLoaders._load_csv demo_files "data/stocks/stocks_usa.csv") /\
  BuildLoaders.load_stocks demo_files "us"
  = BuildLoaders.dedupe_by_ticker
      (BuildLoaders._load_csv demo_files "data/stocks/stocks_us.csv"
       ++ BuildLoaders._load_csv demo_files "data/new_stocks/us_stocks.csv")%list.
Proof. apply country_usa_inconsistent. vm_compute; reflexivity. Defined.

Lemma get_index_file_unread_witness :
  get (P := files_provider demo_files) (Some "Apple Inc") (Some "us")
  = get (P := files_provider (fun p => if String.eqb p "data/indices/indices.csv" then None
                                       else demo_files p)) (Some "Apple Inc") (Some "us").
Proof.
  apply get_index_file_unread; [|vm_compute; reflexivity].
  intros p Hp. by rewrite (proj2 (String.eqb_neq _ _) Hp).
Defined.

Lemma unknown_category_error_witness :
  get_ticker (P := demo) (Some "Apple Inc") (Some "us") (Some "bond")
  = Err (ValueError ("Unknown category: " ++ "bond")).
Proof.
  apply unknown_category_error; [discriminate | vm_compute; reflexivity | vm_compute; reflexivity | set_solver].
Defined.

Lemma punctuation_name_first_nse_witness :
  get_ticker (P := demo) (Some "!!!") (Some "india") None
  = Ok (row_sub (mk_row "Tata Motors" "TATAMOTORS.NS") "ticker").
Proof.
  apply (punctuation_name_first_nse _ _
    [mk_row "Reliance Industries" "RELIANCE.NS"; mk_row "Reliance Power" "RPOWER.NS"]);
    [discriminate | vm_compute; reflexivity | vm_compute; reflexivity | vm_compute; lia | vm_compute; reflexivity].
Defined.



Lemma get_fx_pair_no_dataset_witness :
  get (P := demo) (Some "USDINR") (Some "india") = Ok (py_upper (normalize_strict "USDINR") ++ "=X").
Proof. apply get_fx_pair_no_dataset; vm_compute; reflexivity. Defined.



Lemma get_ticker_fx_roundtrip_witness :
  get_ticker (P := demo) (Some (py_lower "USDINR=X")) (Some "us") (Some "etf") = Ok "USDINR=X".
Proof. apply (get_ticker_fx_roundtrip "USDINR" None None); vm_compute; reflexivity. Defined.

Lemma get_result_truthy_witness :
  get (P := demo) (Some "Apple Inc") (Some "us") = Ok "AAPL" /\ py_truthy "AAPL" = true.
Proof.
  assert (H : get (P := demo) (Some "Apple Inc") (Some "us") = Ok "AAPL")
    by (vm_compute; reflexivity).
  split; [exact H | exact (get_result_truthy _ _ _ H)].
Defined.

End Pkg.
