(* ===== verification/SimpleCore.v ===== *)
(** * SimpleCore: the source-tree resolver [src/market_tickers/core.py]

    At import the module loads three datasets with [SrcLoaders]
    (lines 24-26); a missing file makes the import fail.  The loaded
    rows are the module state [CoreState], read by

    - [get_ticker] (lines 29-47): the first index whose leniently
      normalised name equals the query gives its "ticker"; else the
      first Indian stock gives "<symbol>.NS" or "<symbol>.BO"
      ([_build_india_ticker], lines 19-20); else the first US stock
      gives its "symbol"; else [ValueError];
    - [get_default_index] (lines 50-58): the first Indian or US stock
      with that name gives its "default_index" column, resolved again
      by [get_ticker].

    The rows are those [csv.DictReader] yields ([RawRow]): [row[k]]
    raises [KeyError] when the header lacks the column and gives
    Python's [None] for a cell a short record lacks.  Values that may
    be [None] are [option string]: [_normalize(None)] raises
    [AttributeError], [f"{None}"] is "None", and [get_ticker] returns
    whatever cell it reads.  The refinement theorems state that, on
    rows carrying their cells, the three loops of [get_ticker] compute
    the first match of one candidate list (indices, then Indian, then
    US stocks) and [get_default_index] the first match among the stocks;
    [init_spec] characterises a successful import. *)

From S2P Require Import Prelude PyStr Normalize Csv Loaders.
Local Open Scope string_scope.

Module SrcCore.

(** Module state: the datasets loaded at import. *)
Record CoreState := {
  INDIA_STOCKS : list RawRow;
  USA_STOCKS : list RawRow;
  INDICES : list RawRow
}.

(** Lines 24-26: import-time loading, in source order. *)
Definition init (fs : RawFiles) : res CoreState :=
  (india <-? SrcLoaders.load_india_stocks fs ;;
   usa <-? SrcLoaders.load_usa_stocks fs ;;
   indices <-? SrcLoaders.load_indices fs ;;
   Ok {| INDIA_STOCKS := india; USA_STOCKS := usa; INDICES := indices |})%py.

(** [row[k]]: the cell, [None] for a short record's missing cell. *)
Definition row_at (row : RawRow) (k : string) : res (option string) :=
  match row !! k with
  | Some v => Ok v
  | None => Err (KeyError k)
  end.

Definition none_lower : pyexc := AttributeError "'NoneType' object has no attribute 'lower'".

(** Lines 10-16 applied to a [str] or to [None]: [None.lower()] raises. *)
Definition _normalize (text : option string) : res string :=
  match text with
  | Some s => Ok (normalize_lenient s)
  | None => Err none_lower
  end.

(** [f"{x}"] *)
Definition py_format (x : option string) : string :=
  match x with Some s => s | None => "None" end.

(** Lines 19-20. *)
Definition _build_india_ticker (symbol exchange : option string) : string :=
  if bool_decide (exchange = Some "NSE") then py_format symbol ++ ".NS"
  else py_format symbol ++ ".BO".

(** [for row in rows: if _normalize(row["name"]) == norm: return f(row)]:
    [Ok (Some v)] when a row returns [v], [Ok None] when the loop ends. *)
Fixpoint scan (norm : string) (f : RawRow -> res (option string)) (rows : list RawRow)
    : res (option (option string)) :=
  match rows with
  | [] => Ok None
  | row :: rest =>
      (n <-? row_at row "name" ;;
       nn <-? _normalize n ;;
       if String.eqb nn norm
       then (t <-? f row ;; Ok (Some t))
       else scan norm f rest)%py
  end.

Definition index_ticker (row : RawRow) : res (option string) := row_at row "ticker".

Definition india_ticker (row : RawRow) : res (option string) :=
  (symbol <-? row_at row "symbol" ;;
   exchange <-? row_at row "exchange" ;;
   Ok (Some (_build_india_ticker symbol exchange)))%py.

Definition usa_ticker (row : RawRow) : res (option string) := row_at row "symbol".

(** Lines 29-47. *)
Definition get_ticker (st : CoreState) (name : option string) : res (option string) :=
  (norm <-? _normalize name ;;
   r1 <-? scan norm index_ticker (INDICES st) ;;
   match r1 with
   | Some t => Ok t
   | None =>
       r2 <-? scan norm india_ticker (INDIA_STOCKS st) ;;
       match r2 with
       | Some t => Ok t
       | None =>
           r3 <-? scan norm usa_ticker (USA_STOCKS st) ;;
           match r3 with
           | Some t => Ok t
           | None => Err (ValueError ("Ticker not found for: " ++ py_format name))
           end
       end
   end)%py.

(** Lines 50-58. *)
Definition get_default_index (st : CoreState) (stock_name : option string)
    : res (option string) :=
  (norm <-? _normalize stock_name ;;
   r <-? scan norm (fun row => row_at row "default_index")
                (INDIA_STOCKS st ++ USA_STOCKS st)%list ;;
   match r with
   | Some index_name => get_ticker st index_name
   | None => Err (ValueError ("No default index found for: " ++ py_format stock_name))
   end)%py.

(** ** The abstract view: one ordered list of candidates *)

(** A row carries a string cell for each of the columns [ks]. *)
Definition has_cols (ks : list string) (row : RawRow) : Prop :=
  Forall (fun k => exists v, row !! k = Some (Some v)) ks.

Definition core_wf (st : CoreState) : Prop :=
  Forall (has_cols ["name"; "ticker"]) (INDICES st)
  /\ Forall (has_cols ["name"; "symbol"; "exchange"]) (INDIA_STOCKS st)
  /\ Forall (has_cols ["name"; "symbol"]) (USA_STOCKS st).

Definition col (row : RawRow) (k : string) : string :=
  match row !! k with Some (Some v) => v | _ => "" end.

(** (name, ticker) pairs in the order [get_ticker] visits them. *)
Definition candidates (st : CoreState) : list (string * string) :=
  ((fun r => (col r "name", col r "ticker")) <$> INDICES st)
  ++ ((fun r => (col r "name",
                 _build_india_ticker (Some (col r "symbol")) (Some (col r "exchange"))))
        <$> INDIA_STOCKS st)
  ++ ((fun r => (col r "name", col r "symbol")) <$> USA_STOCKS st).

Definition name_matches (norm : string) (c : string * string) : Prop :=
  normalize_lenient c.1 = norm.

#[export] Instance name_matches_dec norm c : Decision (name_matches norm c).
Proof. unfold name_matches. apply _. Defined.

(** The specification: the ticker of the first candidate whose name
    normalises to the query. *)
Definition spec_get_ticker (st : CoreState) (name : string) : res string :=
  match head (filter (name_matches (normalize_lenient name)) (candidates st)) with
  | Some c => Ok c.2
  | None => Err (ValueError ("Ticker not found for: " ++ name))
  end.

(** A row whose cells are all present. *)
Definition full_row (r : gmap string string) : RawRow := Some <$> r.

(** A small import state for the witnesses. *)
Definition demo_state : CoreState := {|
  INDIA_STOCKS := [full_row (<["name" := "Reliance Industries"]> (<["symbol" := "RELIANCE"]>
                    (<["exchange" := "NSE"]> {["default_index" := "Nifty 50"]})))];
  USA_STOCKS := [full_row (<["name" := "Nvidia"]> (<["symbol" := "NVDA"]>
                    {["default_index" := "S&P 500"]}))];
  INDICES := [full_row (<["name" := "Nifty 50"]> {["ticker" := "^NSEI"]});
              full_row (<["name" := "S&P 500"]> {["ticker" := "^GSPC"]})]
|}.

(** Source-tree data files holding the rows of [demo_state]. *)
Definition demo_files : RawFiles := fun path =>
  if String.eqb path "data/india_stocks.csv" then Some (INDIA_STOCKS demo_state)
  else if String.eqb path "data/usa_stocks.csv" then Some (USA_STOCKS demo_state)
  else if String.eqb path "data/indices_india.csv" then Some (INDICES demo_state)
  else if String.eqb path "data/indices_usa.csv" then Some []
  else if String.eqb path "data/indices_global.csv" then Some []
  else None.

(** ** Lemmas *)

Lemma has_cols_row_at ks row k :
  has_cols ks row -> k ∈ ks -> row_at row k = Ok (Some (col row k)).
Proof.
  unfold has_cols, row_at, col. rewrite Forall_forall. intros H Hk.
  by destruct (H k Hk) as [v ->].
Qed.

(** A loop over rows carrying their cells returns the value of the
    first row whose name matches. *)
Lemma scan_first norm f (g : RawRow -> string) ks rows :
  "name" ∈ ks -> (forall r, has_cols ks r -> f r = Ok (Some (g r))) ->
  Forall (has_cols ks) rows ->
  scan norm f rows =
  Ok ((fun c => Some c.2) <$>
      head (filter (name_matches norm) ((fun r => (col r "name", g r)) <$> rows))).
Proof.
  intros Hname Hf. induction rows as [|r rows IH]; intros Hall; [done|].
  apply Forall_cons in Hall as [Hr Hall]. simpl.
  rewrite (has_cols_row_at ks r "name") by done. simpl. rewrite filter_cons.
  unfold name_matches at 1. simpl.
  destruct (String.eqb_spec (normalize_lenient (col r "name")) norm) as [E|E].
  - rewrite decide_True by done. by rewrite Hf.
  - rewrite decide_False by done. by apply IH.
Qed.

Lemma index_ticker_ok r :
  has_cols ["name"; "ticker"] r -> index_ticker r = Ok (Some (col r "ticker")).
Proof. intros H. apply (has_cols_row_at _ _ _ H). set_solver. Qed.

Lemma india_ticker_ok r :
  has_cols ["name"; "symbol"; "exchange"] r ->
  india_ticker r
  = Ok (Some (_build_india_ticker (Some (col r "symbol")) (Some (col r "exchange")))).
Proof.
  intros H. unfold india_ticker.
  rewrite (has_cols_row_at _ _ "symbol" H), (has_cols_row_at _ _ "exchange" H) by set_solver.
  done.
Qed.

Lemma usa_ticker_ok r :
  has_cols ["name"; "symbol"] r -> usa_ticker r = Ok (Some (col r "symbol")).
Proof. intros H. apply (has_cols_row_at _ _ _ H). set_solver. Qed.

Lemma head_filter_app {A} (P : A -> Prop) `{!forall x, Decision (P x)} (l1 l2 : list A) :
  head (filter P (l1 ++ l2)%list) =
  match head (filter P l1) with Some x => Some x | None => head (filter P l2) end.
Proof. by rewrite filter_app, head_app. Qed.

(** ** Properties *)

(** C24: Refinement: on rows that carry their cells, the three loops of
    [get_ticker] return the ticker of the first candidate, in the order
    indices, Indian stocks, US stocks, whose name normalises like the
    query; with no such candidate they raise [ValueError]. *)
Theorem get_ticker_refines_spec st name :
  core_wf st -> get_ticker st (Some name) = (t <-? spec_get_ticker st name ;; Ok (Some t))%py.
Proof.
  intros (Hi & Hin & Hus). unfold get_ticker, spec_get_ticker, candidates. simpl.
  rewrite (scan_first _ _ _ ["name"; "ticker"] _ ltac:(left) index_ticker_ok Hi),
    (scan_first _ _ _ ["name"; "symbol"; "exchange"] _ ltac:(left) india_ticker_ok Hin),
    (scan_first _ _ _ ["name"; "symbol"] _ ltac:(left) usa_ticker_ok Hus).
  rewrite !head_filter_app. simpl.
  destruct (head (filter _ (_ <$> INDICES st))) as [[n t]|]; [done|]. simpl.
  destruct (head (filter _ (_ <$> INDIA_STOCKS st))) as [[n t]|]; [done|]. simpl.
  by destruct (head (filter _ (_ <$> USA_STOCKS st))) as [[n t]|].
Qed.

(** C26: The first index row decides how a bad "name" cell fails: a
    header without the column makes [row["name"]] raise [KeyError], a
    record too short to hold the cell makes [_normalize(None)] raise
    [AttributeError]; either way no lookup succeeds. *)
Theorem get_ticker_bad_name_cell st name r rest :
  INDICES st = r :: rest ->
  (r !! "name" = None -> get_ticker st (Some name) = Err (KeyError "name"))
  /\ (r !! "name" = Some None -> get_ticker st (Some name) = Err none_lower).
Proof.
  intros Hst. unfold get_ticker. rewrite Hst. simpl. unfold row_at.
  split; intros Hr; by rewrite Hr.
Qed.

(** C27: Import fails when the Indian stock file is missing: the source-tree
    loader raises instead of returning an empty dataset. *)
Theorem init_missing_india_file fs :
  fs "data/india_stocks.csv" = None ->
  init fs = Err (FileNotFoundError "data/india_stocks.csv").
Proof.
  intros Hf. unfold init, SrcLoaders.load_india_stocks, SrcLoaders._load_csv, SrcLoaders.DATA_DIR.
  cbv [String.append]. by rewrite Hf.
Qed.


(** C32: Spelling invariance of the source-tree resolver: a name with
    the same lenient normal form as a name that resolves (the same text
    up to case, "&" written "and", hyphens and spaces) gets the same
    answer, on every loaded state, malformed rows included: the query
    only enters the loops through [_normalize]. *)
Theorem get_ticker_lenient_invariant st n n' v :
  normalize_lenient n' = normalize_lenient n ->
  get_ticker st (Some n) = Ok v -> get_ticker st (Some n') = Ok v.
Proof.
  intros Hq. unfold get_ticker. simpl. rewrite Hq. unfold res_bind.
  repeat case_match; congruence.
Qed.

(** C30: The import succeeds exactly when the two stock files exist and
    [load_indices] succeeds, and the module state is then their rows:
    the Indian file in [INDIA_STOCKS], the US file in [USA_STOCKS]. *)
Theorem init_spec fs st :
  init fs = Ok st <->
  fs "data/india_stocks.csv" = Some (INDIA_STOCKS st)
  /\ fs "data/usa_stocks.csv" = Some (USA_STOCKS st)
  /\ SrcLoaders.load_indices fs = Ok (INDICES st).
Proof.
  unfold init, SrcLoaders.load_india_stocks, SrcLoaders.load_usa_stocks, SrcLoaders._load_csv,
    SrcLoaders.DATA_DIR. cbv [String.append]. destruct st as [i u x]. simpl.
  destruct (fs "data/india_stocks.csv"), (fs "data/usa_stocks.csv"), (SrcLoaders.load_indices fs);
    simpl; split; intros H; by simplify_eq/=; try destruct H as (? & ? & ?); simplify_eq.
Qed.

(** C38: Refinement of [get_default_index] on rows carrying "name" and
    "default_index": the first Indian, then US, stock whose name
    normalises like the query gives the index name, which is resolved
    again by [get_ticker]; with no such stock it raises [ValueError]. *)
Theorem get_default_index_refines_spec st stock_name :
  Forall (has_cols ["name"; "default_index"]) (INDIA_STOCKS st ++ USA_STOCKS st)%list ->
  get_default_index st (Some stock_name) =
  match head (filter (name_matches (normalize_lenient stock_name))
                ((fun r => (col r "name", col r "default_index"))
                   <$> (INDIA_STOCKS st ++ USA_STOCKS st)%list)) with
  | Some c => get_ticker st (Some c.2)
  | None => Err (ValueError ("No default index found for: " ++ stock_name))
  end.
Proof.
  intros Hs. unfold get_default_index. simpl.
  rewrite (scan_first _ _ (fun r => col r "default_index") ["name"; "default_index"]);
    [| set_solver | | done].
  - simpl. by destruct (head _).
  - intros r' Hr'. apply (has_cols_row_at _ _ _ Hr'). set_solver.
Qed.

(** A short Indian record without its "symbol" cell yields the ticker
    "None.NS": [f"{None}.NS"]. *)
Example short_india_row_none_symbol :
  get_ticker {| INDIA_STOCKS := [<["name" := Some "Tata Motors"]> (<["symbol" := None]>
                                   {["exchange" := Some "NSE"]})];
                USA_STOCKS := []; INDICES := [] |} (Some "Tata Motors")
  = Ok (Some "None.NS").
Proof. vm_compute. reflexivity. Qed.

(** ** Witnesses *)

Lemma get_ticker_refines_spec_witness :
  get_ticker demo_state (Some "S and P 500") = Ok (Some "^GSPC").
Proof.
  rewrite get_ticker_refines_spec; [vm_compute; reflexivity|].
  repeat split; repeat constructor; vm_compute; eauto.
Defined.

Lemma get_ticker_lenient_invariant_witness :
  get_ticker demo_state (Some "S-and-P-500") = Ok (Some "^GSPC").
Proof. apply (get_ticker_lenient_invariant _ "S&P 500"); vm_compute; reflexivity. Defined.

Lemma init_spec_witness :
  init demo_files = Ok demo_state.
Proof. apply init_spec. vm_compute. split_and!; reflexivity. Defined.

Lemma get_default_index_refines_spec_witness :
  get_default_index demo_state (Some "Reliance-Industries") = get_ticker demo_state (Some "Nifty 50").
Proof.
  rewrite get_default_index_refines_spec; [vm_compute; reflexivity|].
  repeat constructor; vm_compute; eauto.
Defined.

Definition short_name_state : CoreState := {|
  INDIA_STOCKS := []; USA_STOCKS := [];
  INDICES := [<["name" := None]> {["ticker" := Some "^NSEI"]}] |}.

Lemma get_ticker_bad_name_cell_witness :
  get_ticker short_name_state (Some "Nifty") = Err none_lower.
Proof.
  refine (proj2 (get_ticker_bad_name_cell short_name_state "Nifty"
                   (<["name" := None]> {["ticker" := Some "^NSEI"]}) [] eq_refl) _).
  vm_compute. reflexivity.
Defined.

Lemma init_missing_india_file_witness :
  init (fun _ => None) = Err (FileNotFoundError "data/india_stocks.csv").
Proof. apply init_missing_india_file. vm_compute. reflexivity. Defined.


End SrcCore.
