(* ===== verification/Demo.v ===== *)
(** * Demo: the demo script [src/unnamed/part_000] ("Test Code.py")

    The script imports [get_ticker] and [get_default_index] from the
    package [market_tickers], resolves "Nvidia" with both, prints the
    pair, downloads their closing prices from yfinance and prints the
    head of the table.  Two packages of that name are in the
    repository, and both accept the script's one-argument calls: the
    packaged resolver ([Resolver], [Module Pkg]) and the source-tree one
    ([SimpleCore], [Module SrcCore]).  The script is therefore written
    against a [TickerApi], a record of the two operations it calls, with
    one instance per package.

    The script's effects are an explicit list of [event]s: the two
    prints and the download request.  What yfinance returns is not
    modelled: [PrintHead] stands for printing whatever it returned.  An
    exception ends the script with the events so far. *)

From S2P Require Import Prelude PyStr Normalize Loaders Matcher Resolver SimpleCore.
Local Open Scope string_scope.

Module Demo.

(** What [from market_tickers import get_ticker, get_default_index]
    provides, as the script calls it (one [str] argument each); a result
    is a Python [str] or [None]. *)
Record TickerApi := {
  api_get_ticker : string -> res (option string);
  api_get_default_index : string -> res (option string)
}.

(** The packaged package: [country] and [category] default to [None],
    and [get_default_index]'s [country] to "india". *)
Definition packaged_api `{P : DatasetProvider} : TickerApi := {|
  api_get_ticker n := (t <-? Pkg.get_ticker (Some n) None None ;; Ok (Some t))%py;
  api_get_default_index s := (t <-? Pkg.get_default_index s "india" ;; Ok (Some t))%py
|}.

(** The source-tree package, over the state its import loaded. *)
Definition source_api (st : SrcCore.CoreState) : TickerApi := {|
  api_get_ticker n := SrcCore.get_ticker st (Some n);
  api_get_default_index s := SrcCore.get_default_index st (Some s)
|}.

(** Importing the source-tree package runs its import-time loading. *)
Definition import_source (fs : RawFiles) : res TickerApi :=
  (st <-? SrcCore.init fs ;; Ok (source_api st))%py.

(** The observable effects of the script: [print] shows [str] of its
    arguments; [yf.download] receives the Python values. *)
Inductive event :=
| Print (args : list string)
| Download (tickers : list (option string)) (start end_ : string)
| PrintHead.

(** Lines 5-16: the events the script produces, and the exception that
    stopped it, if any. *)
Definition test_code (api : TickerApi) : list event * option pyexc :=
  match api_get_ticker api "Nvidia" with
  | Err e => ([], Some e)
  | Ok stock =>
      match api_get_default_index api "Nvidia" with
      | Err e => ([], Some e)
      | Ok index =>
          ([Print [SrcCore.py_format stock; SrcCore.py_format index];
            Download [stock; index] "2022-01-01" "2024-01-01";
            PrintHead], None)
      end
  end.

(** The whole script: the import, then lines 5-16. *)
Definition run_script (imported : res TickerApi) : list event * option pyexc :=
  match imported with
  | Err e => ([], Some e)
  | Ok api => test_code api
  end.

(** The events of a run that resolved [stock] and [index]. *)
Definition nvidia_trace (stock index : string) : list event :=
  [Print [stock; index]; Download [Some stock; Some index] "2022-01-01" "2024-01-01";
   PrintHead].


(** ** Properties *)

(** C35: Whatever the packaged package's data files hold, the demo
    prints and asks yfinance for "NVIDIA=X" and "^NSEI": the six-letter
    name "Nvidia" takes the FX shortcut of [get_ticker] before any
    dataset is read, and [get_default_index]'s country defaults to
    "india". *)
Theorem demo_packaged_trace `{P : DatasetProvider} :
  run_script (Ok packaged_api) = (nvidia_trace "NVIDIA=X" "^NSEI", None).
Proof. vm_compute; reflexivity. Qed.

(** On data files listing Nvidia as a US stock, the source-tree package
    asks for "NVDA" and "^GSPC"; with a data file missing, its import
    raises before any event. *)
Example demo_source_trace :
  run_script (import_source SrcCore.demo_files) = (nvidia_trace "NVDA" "^GSPC", None)
  /\ run_script (import_source (fun _ => None))
     = ([], Some (FileNotFoundError "data/india_stocks.csv")).
Proof. split; vm_compute; reflexivity. Qed.

End Demo.
